(** * Market-context module (src/api/fmp.js): model and properties

    A shallow embedding of the three asynchronous routines of the module
    ([fetchMarketData], [fetchIndexQuotes], [fetchMarketNews]) and of the
    helper [getKeyByValue], followed by the properties of the aggregation
    routine and of the two normalisation steps.

    The routines run sequentially (every call is awaited), so an [await]ed
    call is modelled as an ordinary call in a monad that carries the raised
    fault, if any, and the chronological list of observable events (network
    calls and console output).  The provider, the clock and the two
    implementation-defined built-ins are the fields of a [Host].

    The first part holds the definitions: the values, the host, the module
    itself, the vocabulary of the properties and the data of the concrete
    runs.  The second part holds the properties. *)

From Stdlib Require Import ZArith Lia Ascii String.
From Corelib Require Import SpecFloat.
From stdpp Require Import gmap strings list pretty.

Local Open Scope string_scope.
Local Open Scope list_scope.
Local Open Scope Z_scope.
#[local] Set Warnings "-register-all".

(** ** JavaScript values

    The values the module handles are those that [JSON.parse] produces,
    the credential in [env], and [undefined] (the result of reading a
    missing property).  A string is a sequence of code units; a number is an
    IEEE-754 double.  An object is the list of its own properties, the first
    binding of a name being the one that is read. *)

Inductive Value : Type :=
| VUndefined
| VNull
| VBool (b : bool)
| VNum (x : spec_float)
| VStr (s : string)
| VArr (elems : list Value)
| VObj (props : list (string * Value)).

(** A raised fault: always an [Error] object here (the platform's [fetch]
    and [json()] reject with one, and the language raises [TypeError] and
    [RangeError] itself), of which the handlers read [message]. *)
Record Fault : Type := mkFault { errName : string; errMessage : string }.

Definition TypeError (msg : string) : Fault := mkFault "TypeError" msg.
Definition RangeError (msg : string) : Fault := mkFault "RangeError" msg.

Inductive Completion (A : Type) : Type :=
| Normal (a : A)
| Throw (e : Fault).
Arguments Normal {A} a.
Arguments Throw {A} e.

(** Observable events, in the order in which they happen. *)
Inductive Event : Type :=
| EFetch (url : string)
| EWarn (args : list string)
| EError (args : list string).

(** A computation: its completion and the events it produced. *)
Definition M (A : Type) : Type := Completion A * list Event.

#[export] Instance M_ret : MRet M := fun A a => (Normal a, []).
#[export] Instance M_bind : MBind M := fun A B f m =>
  match m with
  | (Normal a, t) => let '(r, t') := f a in (r, t ++ t')
  | (Throw e, t) => (Throw e, t)
  end.

#[export] Instance Completion_ret : MRet Completion := fun A a => Normal a.
#[export] Instance Completion_bind : MBind Completion := fun A B f c =>
  match c with
  | Normal a => f a
  | Throw e => Throw e
  end.

Definition emit (ev : Event) : M unit := (Normal tt, [ev]).
Definition lift {A} (c : Completion A) : M A := (c, []).

(** [try { body } catch (error) { handler }] *)
Definition tryCatch {A} (body : M A) (handler : Fault → M A) : M A :=
  match body with
  | (Normal a, t) => (Normal a, t)
  | (Throw e, t) => let '(r, t') := handler e in (r, t ++ t')
  end.

Definition result {A} (m : M A) : Completion A := m.1.
Definition trace {A} (m : M A) : list Event := m.2.

(** ** Property access, truthiness *)

Fixpoint lookupProp (name : string) (props : list (string * Value)) : Value :=
  match props with
  | [] => VUndefined
  | (k, v) :: rest => if String.eqb k name then v else lookupProp name rest
  end.

(** [v.name], for the property names this module reads, none of which is
    defined on a built-in prototype: reading a property of [undefined] or
    [null] raises [TypeError]; a primitive or an array has no such
    property. *)
Definition Get (v : Value) (name : string) : Completion Value :=
  match v with
  | VUndefined =>
      Throw (TypeError ("Cannot read properties of undefined (reading '" +:+ name +:+ "')"))
  | VNull =>
      Throw (TypeError ("Cannot read properties of null (reading '" +:+ name +:+ "')"))
  | VObj props => Normal (lookupProp name props)
  | _ => Normal VUndefined
  end.

Definition isZeroOrNaN (x : spec_float) : bool :=
  match x with
  | S754_zero _ | S754_nan => true
  | _ => false
  end.

(** [ToBoolean]: [undefined], [null], [false], [±0], [NaN] and [""] are
    falsy; everything else is truthy. *)
Definition ToBoolean (v : Value) : bool :=
  match v with
  | VUndefined | VNull => false
  | VBool b => b
  | VNum x => negb (isZeroOrNaN x)
  | VStr s => negb (String.eqb s "")
  | VArr _ | VObj _ => true
  end.

(** ** The host: network, clock and the implementation-defined built-ins *)

Record Response : Type := mkResponse {
  status : Z;                     (* response.status *)
  json : Completion Value         (* await response.json() *)
}.

(** [response.ok]: the status is in the range 200-299. *)
Definition ok (r : Response) : bool := (200 <=? status r) && (status r <=? 299).

Inductive FetchOutcome : Type :=
| Rejected (e : Fault)            (* transport failure: fetch rejects *)
| Responded (r : Response).

Record Host : Type := mkHost {
  fetch : string → FetchOutcome;          (* what the provider answers at a URL *)
  Date_now : Z;                           (* time value of [new Date()] *)
  Date_parse : string → option Z;         (* [Date.parse]; [None] is NaN *)
  Number_toString : spec_float → string   (* [Number.prototype.toString] *)
}.

(** ** String coercion and dates *)

Definition hasOwn (name : string) (props : list (string * Value)) : bool :=
  existsb (fun kv => String.eqb kv.1 name) props.

Definition joinWith (sep : string) (parts : list string) : string :=
  match parts with
  | [] => ""
  | p :: ps => fold_left (fun acc q => acc +:+ sep +:+ q) ps p
  end.

Fixpoint sequenceC {A} (cs : list (Completion A)) : Completion (list A) :=
  match cs with
  | [] => Normal []
  | Normal a :: rest =>
      match sequenceC rest with
      | Normal l => Normal (a :: l)
      | Throw e => Throw e
      end
  | Throw e :: _ => Throw e
  end.

(** [ToString], as a template literal applies it.  An array is joined with
    commas, [undefined] and [null] elements giving the empty string; a plain
    object gives "[object Object]" unless an own, hence non-callable,
    [toString] property hides the inherited method, in which case no
    primitive is obtained and [TypeError] is raised. *)
Fixpoint ToString (h : Host) (v : Value) : Completion string :=
  match v with
  | VUndefined => Normal "undefined"
  | VNull => Normal "null"
  | VBool b => Normal (if b then "true" else "false")
  | VNum x => Normal (Number_toString h x)
  | VStr s => Normal s
  | VArr elems =>
      match sequenceC (map (fun e => match e with
                                     | VUndefined | VNull => Normal ""
                                     | _ => ToString h e
                                     end) elems) with
      | Normal parts => Normal (joinWith "," parts)
      | Throw e => Throw e
      end
  | VObj props =>
      if hasOwn "toString" props
      then Throw (TypeError "Cannot convert object to primitive value")
      else Normal "[object Object]"
  end.

(** Truncation of a double towards zero ([ToIntegerOrInfinity]); [None] for
    NaN and the infinities, which [TimeClip] rejects anyway. *)
Definition truncate (x : spec_float) : option Z :=
  match x with
  | S754_zero _ => Some 0
  | S754_finite s m e =>
      let a := if 0 <=? e then Z.shiftl (Z.pos m) e else Z.shiftr (Z.pos m) (- e) in
      Some (if s then - a else a)
  | S754_infinity _ | S754_nan => None
  end.

(** [TimeClip]: a time value is at most 8.64e15 ms away from the epoch. *)
Definition TimeClip (t : Z) : option Z :=
  if Z.abs t <=? 8640000000000000 then Some t else None.

(** [|x| <= limit], on the exact value of the double. *)
Definition magnitudeAtMost (limit : Z) (x : spec_float) : bool :=
  match x with
  | S754_zero _ => true
  | S754_finite _ m e =>
      if 0 <=? e then Z.shiftl (Z.pos m) e <=? limit
      else Z.pos m <=? Z.shiftl limit (- e)
  | S754_infinity _ | S754_nan => false
  end.

(** [TimeClip] of a number: the range test is made before the truncation. *)
Definition TimeClipNumber (x : spec_float) : option Z :=
  if magnitudeAtMost 8640000000000000 x then truncate x else None.

(** The time value of [new Date(v)]; [None] is the invalid date (NaN). *)
Definition DateValue (h : Host) (v : Value) : Completion (option Z) :=
  match v with
  | VUndefined => Normal None
  | VNull => Normal (Some 0)
  | VBool b => Normal (Some (if b then 1 else 0))
  | VNum x => Normal (TimeClipNumber x)
  | VStr s => Normal (Date_parse h s ≫= TimeClip)
  | VArr _ | VObj _ =>
      match ToString h v with
      | Normal s => Normal (Date_parse h s ≫= TimeClip)
      | Throw e => Throw e
      end
  end.

Definition digit (n : Z) : ascii := ascii_of_nat (48 + Z.to_nat (n `mod` 10)).

(** The [k] low decimal digits of [n], zero-padded. *)
Fixpoint pad (k : nat) (n : Z) : string :=
  match k with
  | O => ""
  | S k' => pad k' (n `div` 10) +:+ String (digit n) ""
  end.

(** Year, month and day of the proleptic Gregorian calendar from the day
    number counted from 1970-01-01. *)
Definition civil (days : Z) : Z * Z * Z :=
  let z := days + 719468 in
  let era := z `div` 146097 in
  let doe := z - era * 146097 in
  let yoe := (doe - doe `div` 1460 + doe `div` 36524 - doe `div` 146096) `div` 365 in
  let doy := doe - (365 * yoe + yoe `div` 4 - yoe `div` 100) in
  let mp := (5 * doy + 2) `div` 153 in
  let d := doy - (153 * mp + 2) `div` 5 + 1 in
  let m := if mp <? 10 then mp + 3 else mp - 9 in
  let y := yoe + era * 400 + (if m <=? 2 then 1 else 0) in
  (y, m, d).

Definition yearString (y : Z) : string :=
  if (0 <=? y) && (y <=? 9999) then pad 4 y
  else if y <? 0 then "-" +:+ pad 6 (- y)
  else "+" +:+ pad 6 y.

(** The ISO-8601 text [YYYY-MM-DDTHH:mm:ss.sssZ] of a time value. *)
Definition isoFormat (t : Z) : string :=
  let '(y, m, d) := civil (t `div` 86400000) in
  let ms := t `mod` 86400000 in
  yearString y +:+ "-" +:+ pad 2 m +:+ "-" +:+ pad 2 d +:+ "T" +:+
  pad 2 (ms `div` 3600000) +:+ ":" +:+ pad 2 ((ms `div` 60000) `mod` 60) +:+ ":" +:+
  pad 2 ((ms `div` 1000) `mod` 60) +:+ "." +:+ pad 3 (ms `mod` 1000) +:+ "Z".

(** [date.toISOString()]: raises [RangeError] on the invalid date. *)
Definition toISOString (tv : option Z) : Completion string :=
  match tv with
  | Some t => Normal (isoFormat t)
  | None => Throw (RangeError "Invalid time value")
  end.

(** ** The module *)

Definition BASE_URL : string := "https://financialmodelingprep.com/api/v3/".

(** [INDICES], in the order of its keys. *)
Definition INDICES : list (string * string) :=
  [("SP500", "^GSPC"); ("NASDAQ", "^IXIC"); ("DOW", "^DJI");
   ("VIX", "^VIX"); ("US10Y", "^TNX")].

Module QuoteRecord.
Record t : Type := mk {
  symbol : Value;
  price : Value;
  change : Value;
  changePercent : Value;
  dayLow : Value;
  dayHigh : Value;
  volume : Value;
  timestamp : string
}.
End QuoteRecord.

Module NewsItem.
Record t : Type := mk {
  title : Value;
  site : Value;
  publishedAt : Value;
  url : Value;
  summary : string
}.
End NewsItem.

Module Snapshot.
Record t : Type := mk {
  indices : gmap string QuoteRecord.t;
  news : option (list NewsItem.t);
  timestamp : string
}.
End Snapshot.

Fixpoint assoc (key : string) (object : list (string * string)) : option string :=
  match object with
  | [] => None
  | (k, v) :: rest => if String.eqb k key then Some v else assoc key rest
  end.

(** [s === v] for a string [s]. *)
Definition strictEq (s : string) (v : Value) : bool :=
  match v with
  | VStr s' => String.eqb s s'
  | _ => false
  end.

(** [Object.keys(object).find(key => object[key] === value)]; [None] is
    [undefined]. *)
Definition getKeyByValue (object : list (string * string)) (value : Value) : option string :=
  List.find (fun key => match assoc key object with
                        | Some v => strictEq v value
                        | None => false
                        end) (map fst object).

(** [await fetch(url)] *)
Definition doFetch (h : Host) (url : string) : M Response :=
  match fetch h url with
  | Rejected e => (Throw e, [EFetch url])
  | Responded r => (Normal r, [EFetch url])
  end.

(** [data.forEach(callback)], the callback updating the object [s]. *)
Fixpoint forEach {S} (callback : S → Value → Completion S) (data : list Value) (s : S)
  : Completion S :=
  match data with
  | [] => Normal s
  | x :: rest => s' ← callback s x; forEach callback rest s'
  end.

(** The callback of lines 82-98: one raw quote against the mapping built so
    far. *)
Definition quoteCallback (h : Host) (quotes : gmap string QuoteRecord.t) (quote : Value)
  : Completion (gmap string QuoteRecord.t) :=
  symbol ← Get quote "symbol";
  match getKeyByValue INDICES symbol with
  | Some key =>
      if ToBoolean (VStr key) then
        price ← Get quote "price";
        change ← Get quote "change";
        changesPercentage ← Get quote "changesPercentage";
        dayLow ← Get quote "dayLow";
        dayHigh ← Get quote "dayHigh";
        volume ← Get quote "volume";
        ts ← Get quote "timestamp";
        tv ← DateValue h ts;
        iso ← toISOString tv;
        mret (<[key := QuoteRecord.mk symbol price change changesPercentage
                                      dayLow dayHigh volume iso]> quotes)
      else mret quotes
  | None => mret quotes
  end.

Definition quoteUrl (key : string) : string :=
  BASE_URL +:+ "quote/" +:+ joinWith "," (map snd INDICES) +:+ "?apikey=" +:+ key.

Definition fetchIndexQuotes (h : Host) (apiKey : Value) : M (option (gmap string QuoteRecord.t)) :=
  tryCatch
    (key ← lift (ToString h apiKey);
     response ← doFetch h (quoteUrl key);
     if negb (ok response) then
       emit (EWarn ["FMP quote API returned " +:+ pretty (status response)]);;
       mret None
     else
       data ← lift (json response);
       match data with
       | VArr ((_ :: _) as elems) =>
           quotes ← lift (forEach (quoteCallback h) elems ∅);
           mret (Some quotes)
       | _ => mret None
       end)
    (fun error =>
       emit (EWarn ["FMP index quotes fetch failed:"; errMessage error]);;
       mret None).

(** [text.substring(0, 200)] *)
Definition substring200 (text : string) : string := String.substring 0 200 text.

(** [article.text ? article.text.substring(0, 200) + '...' : '']: a truthy
    [text] that is not a string has no [substring] method. *)
Definition summaryOf (text : Value) : Completion string :=
  if ToBoolean text then
    match text with
    | VStr s => Normal (substring200 s +:+ "...")
    | _ => Throw (TypeError "article.text.substring is not a function")
    end
  else Normal "".

(** The callback of lines 129-135. *)
Definition articleCallback (article : Value) : Completion NewsItem.t :=
  title ← Get article "title";
  site ← Get article "site";
  publishedDate ← Get article "publishedDate";
  url ← Get article "url";
  text ← Get article "text";
  summary ← summaryOf text;
  mret (NewsItem.mk title site publishedDate url summary).

(** [array.map(callback)] *)
Definition mapArray {A} (callback : Value → Completion A) (data : list Value)
  : Completion (list A) :=
  sequenceC (map callback data).

Definition newsUrl (key : string) : string :=
  BASE_URL +:+ "stock_news?limit=10&apikey=" +:+ key.

Definition fetchMarketNews (h : Host) (apiKey : Value) : M (option (list NewsItem.t)) :=
  tryCatch
    (key ← lift (ToString h apiKey);
     response ← doFetch h (newsUrl key);
     if negb (ok response) then
       emit (EWarn ["FMP news API returned " +:+ pretty (status response)]);;
       mret None
     else
       data ← lift (json response);
       match data with
       | VArr ((_ :: _) as elems) =>
           items ← lift (mapArray articleCallback (take 5 elems));
           mret (Some items)
       | _ => mret None
       end)
    (fun error =>
       emit (EWarn ["FMP market news fetch failed:"; errMessage error]);;
       mret None).

Definition fetchMarketData (h : Host) (env : Value) : M (option Snapshot.t) :=
  tryCatch
    (apiKey ← lift (Get env "FMP_API_KEY");
     if negb (ToBoolean apiKey) then
       emit (EWarn ["FMP_API_KEY not configured"]);;
       mret None
     else
       quotes ← fetchIndexQuotes h apiKey;
       match quotes with
       | None => mret None
       | Some q =>
           marketNews ← fetchMarketNews h apiKey;
           mret (Some (Snapshot.mk q marketNews (isoFormat (Date_now h))))
       end)
    (fun error =>
       emit (EError ["FMP fetch failed:"; errMessage error]);;
       mret None).

(** ** Vocabulary of the properties *)

(** The provider answered the quote (resp. news) request with a 2xx status
    and a body that parses to [data]. *)
Definition quoteEndpointReturns (h : Host) (apiKey data : Value) : Prop :=
  ∃ key r, ToString h apiKey = Normal key ∧ fetch h (quoteUrl key) = Responded r ∧
           ok r = true ∧ json r = Normal data.

Definition newsEndpointReturns (h : Host) (apiKey data : Value) : Prop :=
  ∃ key r, ToString h apiKey = Normal key ∧ fetch h (newsUrl key) = Responded r ∧
           ok r = true ∧ json r = Normal data.

Definition isNonEmptyArray (data : Value) : bool :=
  match data with
  | VArr (_ :: _) => true
  | _ => false
  end.

(** The ways in which a phase requesting [url] and normalising the body with
    [normalise] fails: building the URL raises, the transport fails, the
    status is not 2xx, the body does not parse, the body is not a non-empty
    array, or a fault is raised while its elements are normalised. *)
Inductive PhaseFails {A} (h : Host) (url : string → string)
    (normalise : list Value → Completion A) (apiKey : Value) : Prop :=
| fails_url e :
    ToString h apiKey = Throw e → PhaseFails h url normalise apiKey
| fails_transport key e :
    ToString h apiKey = Normal key → fetch h (url key) = Rejected e →
    PhaseFails h url normalise apiKey
| fails_status key r :
    ToString h apiKey = Normal key → fetch h (url key) = Responded r → ok r = false →
    PhaseFails h url normalise apiKey
| fails_parse key r e :
    ToString h apiKey = Normal key → fetch h (url key) = Responded r → ok r = true →
    json r = Throw e → PhaseFails h url normalise apiKey
| fails_shape key r data :
    ToString h apiKey = Normal key → fetch h (url key) = Responded r → ok r = true →
    json r = Normal data → isNonEmptyArray data = false →
    PhaseFails h url normalise apiKey
| fails_fault key r elems e :
    ToString h apiKey = Normal key → fetch h (url key) = Responded r → ok r = true →
    json r = Normal (VArr elems) → normalise elems = Throw e →
    PhaseFails h url normalise apiKey.

Definition QuotePhaseFails (h : Host) : Value → Prop :=
  PhaseFails h quoteUrl (fun elems => forEach (quoteCallback h) elems ∅).

Definition NewsPhaseFails (h : Host) : Value → Prop :=
  PhaseFails h newsUrl (fun elems => mapArray articleCallback (take 5 elems)).

Definition isNewsFetch (ev : Event) : Prop := ∃ key, ev = EFetch (newsUrl key).
Definition isFetch (ev : Event) : Prop := ∃ url, ev = EFetch url.

Definition nullish (v : Value) : bool :=
  match v with
  | VUndefined | VNull => true
  | _ => false
  end.

(** The value read at [v.name] when [v] is neither [undefined] nor [null]. *)
Definition prop (v : Value) (name : string) : Value :=
  match v with
  | VObj props => lookupProp name props
  | _ => VUndefined
  end.

(** The identifier a raw record is filed under, if its ticker is a known
    one. *)
Definition identifierOf (quote : Value) : option string :=
  getKeyByValue INDICES (prop quote "symbol").

(** [new Date(quote.timestamp).toISOString()] *)
Definition isoTimestamp (h : Host) (quote : Value) : Completion string :=
  DateValue h (prop quote "timestamp") ≫= toISOString.

(** The normalised record of a raw record whose timestamp converts to
    [iso]. *)
Definition recordOf (quote : Value) (iso : string) : QuoteRecord.t :=
  QuoteRecord.mk (prop quote "symbol") (prop quote "price") (prop quote "change")
    (prop quote "changesPercentage") (prop quote "dayLow") (prop quote "dayHigh")
    (prop quote "volume") iso.

(** A record as the provider is assumed to send it: not null, and with a
    timestamp that converts if the ticker is a known one. *)
Definition wellFormedQuote (h : Host) (quote : Value) : Prop :=
  nullish quote = false ∧
  (is_Some (identifierOf quote) → ∃ iso, isoTimestamp h quote = Normal iso).

(** An article as the provider is assumed to send it: not null, and with a
    [text] that is a string when it is not absent. *)
Definition wellFormedArticle (article : Value) : Prop :=
  nullish article = false ∧
  (ToBoolean (prop article "text") = true → ∃ s, prop article "text" = VStr s).

(** The summary as the specification words it: the marker is there only
    when the text was cut. *)
Definition claimedSummary (text : Value) : string :=
  match text with
  | VStr s => if (200 <? String.length s)%nat then substring200 s +:+ "..." else s
  | _ => ""
  end.

(** ** Data of the concrete runs *)

(** An integer as a double (exact for the small values used below). *)
Definition num (z : Z) : Value :=
  match z with
  | Z0 => VNum (S754_zero false)
  | Zpos p => VNum (S754_finite false p 0)
  | Zneg p => VNum (S754_finite true p 0)
  end.

(** The double nearest to 0.2. *)
Definition zeroPointTwo : Value := VNum (S754_finite false 7205759403792794 (-55)).

(** The raw quote of the specification's scenario. *)
Definition sampleQuote : Value :=
  VObj [("symbol", VStr "^GSPC"); ("price", num 5000); ("change", num 10);
        ("changesPercentage", zeroPointTwo); ("dayLow", num 4950);
        ("dayHigh", num 5010); ("volume", num 1000000);
        ("timestamp", num 1700000000)].

Definition sampleRecord : QuoteRecord.t :=
  QuoteRecord.mk (VStr "^GSPC") (num 5000) (num 10) zeroPointTwo (num 4950) (num 5010)
    (num 1000000) "1970-01-20T16:13:20.000Z".

(** A later quote for the same index, and a quote for an index that is not
    tracked. *)
Definition laterQuote : Value :=
  VObj [("symbol", VStr "^GSPC"); ("price", num 5001); ("timestamp", num 1700000060)].

Definition laterRecord : QuoteRecord.t :=
  QuoteRecord.mk (VStr "^GSPC") (num 5001) VUndefined VUndefined VUndefined VUndefined
    VUndefined "1970-01-20T16:13:20.060Z".

Definition untrackedQuote : Value :=
  VObj [("symbol", VStr "AAPL"); ("price", num 190); ("timestamp", num 1700000000)].

(** A quote for a tracked index that lacks its timestamp. *)
Definition undatedQuote : Value := VObj [("symbol", VStr "^IXIC"); ("price", num 16000)].

Definition shortArticle : Value :=
  VObj [("title", VStr "Fed holds"); ("site", VStr "example.com");
        ("publishedDate", VStr "2023-11-14 22:00:00"); ("url", VStr "https://example.com/a");
        ("text", VStr "hi")].

Definition shortItem : NewsItem.t :=
  NewsItem.mk (VStr "Fed holds") (VStr "example.com") (VStr "2023-11-14 22:00:00")
    (VStr "https://example.com/a") "hi...".

Definition titled (title : string) : Value := VObj [("title", VStr title)].

Definition titledItem (title : string) : NewsItem.t :=
  NewsItem.mk (VStr title) VUndefined VUndefined VUndefined "".

Definition exampleEnv : Value := VObj [("FMP_API_KEY", VStr "k")].

Definition answer (data : Value) : FetchOutcome := Responded (mkResponse 200 (Normal data)).

(** A host whose provider gives [quoteAnswer] to the quote request made with
    the key of [exampleEnv] and [newsAnswer] to any other request, at
    2023-11-14T22:13:20Z.  The runs below coerce no number and parse no
    date text, so the two built-ins are left trivial. *)
Definition exampleHost (quoteAnswer newsAnswer : FetchOutcome) : Host :=
  mkHost (fun url => if String.eqb url (quoteUrl "k") then quoteAnswer else newsAnswer)
    1700000000000 (fun _ => None) (fun _ => "").

(** ** Vocabulary of the further properties *)

(** The URLs requested along a trace, in order. *)
Definition fetchedUrls (t : list Event) : list string :=
  omap (fun ev => match ev with EFetch url => Some url | _ => None end) t.

(** The record carries the ticker of a tracked index. *)
Definition isTracked (quote : Value) : bool :=
  match identifierOf quote with
  | Some _ => true
  | None => false
  end.

(** The article makes the callback of the news phase raise: it is null, or
    its [text] is truthy and not a string. *)
Definition malformedArticle (article : Value) : Prop :=
  nullish article = true ∨
  (ToBoolean (prop article "text") = true ∧ ∀ s, prop article "text" ≠ VStr s).

(** A table in which "b" and "c" share a value. *)
Definition sharedValueTable : list (string * string) :=
  [("a", "x"); ("b", "y"); ("c", "y")].

(** ** Proof tactics *)

(** Membership in an explicit trace, event by event. *)
Ltac in_trace :=
  let H := fresh "Hin" in
  intros H; simpl in H;
  repeat match type of H with
         | _ ∈ [] => by apply elem_of_nil in H
         | _ ∈ _ :: _ => apply elem_of_cons in H as [->|H]
         end; solve [eauto].

Ltac run_phase :=
  cbv [tryCatch mbind M_bind Completion_bind mret M_ret Completion_ret lift emit doFetch
       result trace fst snd].

(** * Properties *)

(** ** Dates *)

Example iso_epoch : isoFormat 0 = "1970-01-01T00:00:00.000Z".
Proof. reflexivity. Qed.
Example iso_2023 : isoFormat 1700000000000 = "2023-11-14T22:13:20.000Z".
Proof. reflexivity. Qed.
Example iso_seconds_as_ms : isoFormat 1700000000 = "1970-01-20T16:13:20.000Z".
Proof. reflexivity. Qed.
Example iso_before_epoch : isoFormat (-1) = "1969-12-31T23:59:59.999Z".
Proof. reflexivity. Qed.
Example iso_leap_day : isoFormat 951782400000 = "2000-02-29T00:00:00.000Z".
Proof. reflexivity. Qed.
Example iso_latest : isoFormat 8640000000000000 = "+275760-09-13T00:00:00.000Z".
Proof. reflexivity. Qed.
Example iso_earliest : isoFormat (-8640000000000000) = "-271821-04-20T00:00:00.000Z".
Proof. reflexivity. Qed.

(** 1.5 and -1.5 are truncated towards zero; one millisecond past the
    latest time value is the invalid date, as is a missing timestamp. *)
Example date_of_fraction : TimeClipNumber (S754_finite false 3 (-1)) = Some 1.
Proof. reflexivity. Qed.
Example date_of_negative_fraction : TimeClipNumber (S754_finite true 3 (-1)) = Some (-1).
Proof. reflexivity. Qed.
Example date_out_of_range : TimeClipNumber (S754_finite false 8640000000000001 0) = None.
Proof. reflexivity. Qed.
Example date_of_undefined h :
  DateValue h VUndefined ≫= toISOString = Throw (RangeError "Invalid time value").
Proof. reflexivity. Qed.

(** ** The phases never raise; when they yield the absent value *)

Lemma fetchIndexQuotes_fails h apiKey :
  QuotePhaseFails h apiKey → result (fetchIndexQuotes h apiKey) = Normal None.
Proof.
  unfold fetchIndexQuotes.
  intros [e He|key e Hk Hf|key r Hk Hf Hok|key r e Hk Hf Hok Hj
         |key r data Hk Hf Hok Hj Hd|key r elems e Hk Hf Hok Hj Hn]; run_phase.
  - by rewrite He.
  - by rewrite Hk, Hf.
  - by rewrite Hk, Hf, Hok.
  - by rewrite Hk, Hf, Hok, Hj.
  - rewrite Hk, Hf, Hok, Hj. simpl. by destruct data as [| | | | |[|]|].
  - rewrite Hk, Hf, Hok, Hj. simpl. destruct elems; [done|]. by rewrite Hn.
Qed.

(** A successful quote phase: one request, no console output. *)
Lemma fetchIndexQuotes_run h apiKey elems quotes :
  quoteEndpointReturns h apiKey (VArr elems) → elems ≠ [] →
  forEach (quoteCallback h) elems ∅ = Normal quotes →
  ∃ key, fetchIndexQuotes h apiKey = (Normal (Some quotes), [EFetch (quoteUrl key)]).
Proof.
  intros (key & r & Hk & Hf & Hok & Hj) Hne Hq. exists key.
  unfold fetchIndexQuotes. run_phase. rewrite Hk, Hf, Hok, Hj. simpl.
  destruct elems; [done|]. by rewrite Hq.
Qed.

Lemma fetchIndexQuotes_succeeds h apiKey elems quotes :
  quoteEndpointReturns h apiKey (VArr elems) → elems ≠ [] →
  forEach (quoteCallback h) elems ∅ = Normal quotes →
  result (fetchIndexQuotes h apiKey) = Normal (Some quotes).
Proof.
  intros Hret Hne Hq.
  by destruct (fetchIndexQuotes_run h apiKey elems quotes Hret Hne Hq) as [key ->].
Qed.

Lemma fetchIndexQuotes_total h apiKey :
  (∃ quotes, result (fetchIndexQuotes h apiKey) = Normal (Some quotes)) ∨
  QuotePhaseFails h apiKey.
Proof.
  destruct (ToString h apiKey) as [key|e] eqn:Hk; [|right; by eapply fails_url].
  destruct (fetch h (quoteUrl key)) as [e|r] eqn:Hf; [right; by eapply fails_transport|].
  destruct (ok r) eqn:Hok; [|right; by eapply fails_status].
  destruct (json r) as [data|e] eqn:Hj; [|right; by eapply fails_parse].
  destruct (isNonEmptyArray data) eqn:Hd; [|right; by eapply fails_shape].
  destruct data as [| | | | |elems|]; try done.
  destruct (forEach (quoteCallback h) elems ∅) as [quotes|e] eqn:Hq;
    [|right; by eapply fails_fault].
  left. exists quotes. eapply fetchIndexQuotes_succeeds; [by exists key, r| |done].
  by destruct elems.
Qed.

Lemma fetchMarketNews_fails h apiKey :
  NewsPhaseFails h apiKey → result (fetchMarketNews h apiKey) = Normal None.
Proof.
  unfold fetchMarketNews.
  intros [e He|key e Hk Hf|key r Hk Hf Hok|key r e Hk Hf Hok Hj
         |key r data Hk Hf Hok Hj Hd|key r elems e Hk Hf Hok Hj Hn]; run_phase.
  - by rewrite He.
  - by rewrite Hk, Hf.
  - by rewrite Hk, Hf, Hok.
  - by rewrite Hk, Hf, Hok, Hj.
  - rewrite Hk, Hf, Hok, Hj. simpl. by destruct data as [| | | | |[|]|].
  - rewrite Hk, Hf, Hok, Hj. simpl. destruct elems; [done|]. by rewrite Hn.
Qed.

Lemma fetchMarketNews_succeeds h apiKey elems items :
  newsEndpointReturns h apiKey (VArr elems) → elems ≠ [] →
  mapArray articleCallback (take 5 elems) = Normal items →
  result (fetchMarketNews h apiKey) = Normal (Some items).
Proof.
  intros (key & r & Hk & Hf & Hok & Hj) Hne Hq.
  unfold fetchMarketNews. run_phase. rewrite Hk, Hf, Hok, Hj. simpl.
  destruct elems; [done|]. by rewrite Hq.
Qed.

(** Neither phase lets a fault escape. *)
Lemma fetchIndexQuotes_normal h apiKey :
  ∃ quotes, result (fetchIndexQuotes h apiKey) = Normal quotes.
Proof.
  destruct (fetchIndexQuotes_total h apiKey) as [[q Hq]|Hf]; [by exists (Some q)|].
  exists None. by apply fetchIndexQuotes_fails.
Qed.

Lemma fetchMarketNews_normal h apiKey :
  ∃ items, result (fetchMarketNews h apiKey) = Normal items.
Proof.
  unfold fetchMarketNews. run_phase.
  destruct (ToString h apiKey) as [key|e]; [|by eexists].
  destruct (fetch h (newsUrl key)) as [e|r]; [by eexists|].
  destruct (ok r); simpl; [|by eexists].
  destruct (json r) as [data|e]; [|by eexists].
  destruct data as [| | | | |[|a elems]|]; try by eexists.
  destruct (mapArray articleCallback (take 5 (a :: elems))); by eexists.
Qed.

Lemma quoteUrl_not_newsUrl key key' : quoteUrl key ≠ newsUrl key'.
Proof. unfold quoteUrl, newsUrl, BASE_URL. simpl. discriminate. Qed.

(** The quote phase requests nothing but the quote endpoint. *)
Lemma fetchIndexQuotes_trace h apiKey ev :
  ev ∈ trace (fetchIndexQuotes h apiKey) →
  (∃ key, ev = EFetch (quoteUrl key)) ∨ (∃ args, ev = EWarn args).
Proof.
  unfold fetchIndexQuotes. run_phase.
  destruct (ToString h apiKey) as [key|e]; [|in_trace].
  destruct (fetch h (quoteUrl key)) as [e|r]; [in_trace|].
  destruct (ok r); simpl; [|in_trace].
  destruct (json r) as [data|e]; [|in_trace].
  destruct data as [| | | | |[|a elems]|]; try in_trace.
  destruct (forEach (quoteCallback h) (a :: elems) ∅); in_trace.
Qed.

(** [fetchMarketData] once a credential is present: the quote phase, then,
    only if it yielded a mapping, the news phase and the assembly. *)
Lemma fetchMarketData_with_key h env apiKey :
  Get env "FMP_API_KEY" = Normal apiKey → ToBoolean apiKey = true →
  fetchMarketData h env =
    match result (fetchIndexQuotes h apiKey) with
    | Normal (Some q) =>
        match result (fetchMarketNews h apiKey) with
        | Normal items =>
            (Normal (Some (Snapshot.mk q items (isoFormat (Date_now h)))),
             trace (fetchIndexQuotes h apiKey) ++ trace (fetchMarketNews h apiKey))
        | Throw e => (Normal None, [])
        end
    | _ => (Normal None, trace (fetchIndexQuotes h apiKey))
    end.
Proof.
  intros Hget Hkey. unfold fetchMarketData. run_phase. rewrite Hget, Hkey. simpl.
  destruct (fetchIndexQuotes_normal h apiKey) as [quotes Hq].
  destruct (fetchMarketNews_normal h apiKey) as [items Hn].
  unfold result in *.
  destruct (fetchIndexQuotes h apiKey) as [rq tq], (fetchMarketNews h apiKey) as [rn tn].
  simpl in *. subst. destruct quotes; simpl; by rewrite ?app_nil_r.
Qed.

Lemma fetchMarketData_without_key h env apiKey :
  Get env "FMP_API_KEY" = Normal apiKey → ToBoolean apiKey = false →
  fetchMarketData h env = (Normal None, [EWarn ["FMP_API_KEY not configured"]]).
Proof. intros Hget Hkey. unfold fetchMarketData. run_phase. by rewrite Hget, Hkey. Qed.

(** [env] itself is [undefined] or [null]: the fault is caught at once. *)
Lemma fetchMarketData_without_env h env e :
  Get env "FMP_API_KEY" = Throw e →
  fetchMarketData h env = (Normal None, [EError ["FMP fetch failed:"; errMessage e]]).
Proof. intros Hget. unfold fetchMarketData. run_phase. by rewrite Hget. Qed.

Lemma fetchMarketData_quote_fails h env apiKey :
  Get env "FMP_API_KEY" = Normal apiKey → QuotePhaseFails h apiKey →
  fetchMarketData h env =
    (Normal None,
     if ToBoolean apiKey then trace (fetchIndexQuotes h apiKey)
     else [EWarn ["FMP_API_KEY not configured"]]).
Proof.
  intros Hget Hfail. destruct (ToBoolean apiKey) eqn:Hkey.
  - rewrite (fetchMarketData_with_key h env apiKey Hget Hkey).
    by rewrite (fetchIndexQuotes_fails h apiKey Hfail).
  - by rewrite (fetchMarketData_without_key h env apiKey Hget Hkey).
Qed.

(** ** The aggregation routine *)

(** C9. When no API key is supplied ([env.FMP_API_KEY] is missing or falsy),
    [fetchMarketData] emits the warning and returns null, and that warning
    is the only event: no network call is made, to either endpoint. *)
Theorem no_credential_no_network h env apiKey :
  Get env "FMP_API_KEY" = Normal apiKey → ToBoolean apiKey = false →
  fetchMarketData h env = (Normal None, [EWarn ["FMP_API_KEY not configured"]]) ∧
  ∀ ev, ev ∈ trace (fetchMarketData h env) → ¬ isFetch ev.
Proof.
  intros Hget Hkey. rewrite (fetchMarketData_without_key h env apiKey Hget Hkey).
  split; [done|]. intros ev Hin [url ->]. by apply list_elem_of_singleton in Hin.
Qed.

(** C4. Whatever the credentials value and whatever the provider does,
    [fetchMarketData] completes normally, never with a fault, and its value
    is one of three: null; a snapshot of the mapping of the quote phase with
    null news, the news phase having yielded null; or a snapshot of that
    mapping with the sequence of the news phase. *)
Theorem fetchMarketData_never_throws h env :
  ∃ out, result (fetchMarketData h env) = Normal out ∧
    (out = None ∨
     (∃ apiKey q,
        result (fetchIndexQuotes h apiKey) = Normal (Some q) ∧
        result (fetchMarketNews h apiKey) = Normal None ∧
        out = Some (Snapshot.mk q None (isoFormat (Date_now h)))) ∨
     (∃ apiKey q items,
        result (fetchIndexQuotes h apiKey) = Normal (Some q) ∧
        result (fetchMarketNews h apiKey) = Normal (Some items) ∧
        out = Some (Snapshot.mk q (Some items) (isoFormat (Date_now h))))).
Proof.
  destruct (Get env "FMP_API_KEY") as [apiKey|e] eqn:Hget.
  - destruct (ToBoolean apiKey) eqn:Hkey.
    + rewrite (fetchMarketData_with_key h env apiKey Hget Hkey).
      destruct (fetchIndexQuotes_normal h apiKey) as [[q|] Hq]; rewrite Hq;
        [|exists None; eauto].
      destruct (fetchMarketNews_normal h apiKey) as [[items|] Hn]; rewrite Hn;
        eexists; (split; [done|]); right; [right|left]; eauto 7.
    + exists None. split; [|by left].
      by rewrite (fetchMarketData_without_key h env apiKey Hget Hkey).
  - exists None. split; [|by left].
    by rewrite (fetchMarketData_without_env h env e Hget).
Qed.

(** C1. When the quote phase fails, for whichever reason (the URL cannot be
    built, the transport fails, the status is not 2xx, the body does not
    parse, is not an array or is empty, or a fault is raised while the
    records are normalised), [fetchMarketData] returns null whatever the
    provider would answer to the news request, and the news endpoint is not
    requested. *)
Theorem quote_failure_is_fatal h env apiKey :
  Get env "FMP_API_KEY" = Normal apiKey → QuotePhaseFails h apiKey →
  result (fetchMarketData h env) = Normal None ∧
  ∀ ev, ev ∈ trace (fetchMarketData h env) → ¬ isNewsFetch ev.
Proof.
  intros Hget Hfail. rewrite (fetchMarketData_quote_fails h env apiKey Hget Hfail).
  split; [done|]. intros ev Hin [key' ->]. unfold trace in Hin. simpl in Hin.
  destruct (ToBoolean apiKey).
  - apply fetchIndexQuotes_trace in Hin as [[key Heq]|[args Heq]]; [|discriminate].
    pose proof (quoteUrl_not_newsUrl key key'). congruence.
  - by apply list_elem_of_singleton in Hin.
Qed.

(** C5. When the quote phase yields a mapping and the news phase fails
    (transport, status, body that does not parse, is not an array or is
    empty, or a fault while the articles are normalised), [fetchMarketData]
    returns a snapshot made of that mapping, a null news field and the ISO
    text of the clock read at assembly. *)
Theorem news_failure_is_not_fatal h env apiKey quotes :
  Get env "FMP_API_KEY" = Normal apiKey → ToBoolean apiKey = true →
  result (fetchIndexQuotes h apiKey) = Normal (Some quotes) →
  NewsPhaseFails h apiKey →
  result (fetchMarketData h env)
  = Normal (Some (Snapshot.mk quotes None (isoFormat (Date_now h)))).
Proof.
  intros Hget Hkey Hq Hfail.
  rewrite (fetchMarketData_with_key h env apiKey Hget Hkey), Hq.
  by rewrite (fetchMarketNews_fails h apiKey Hfail).
Qed.

(** ** Quote normalisation *)

Lemma Get_prop v name : nullish v = false → Get v name = Normal (prop v name).
Proof. by destruct v. Qed.

Lemma Get_nullish v name : nullish v = true → ∃ e, Get v name = Throw e.
Proof. destruct v; try done; by eexists. Qed.

(** [getKeyByValue] on [INDICES] is the reverse lookup of the table. *)
Lemma getKeyByValue_INDICES v key :
  getKeyByValue INDICES v = Some key ↔ ∃ ticker, v = VStr ticker ∧ (key, ticker) ∈ INDICES.
Proof.
  split.
  - destruct v as [| | | |s| |]; try done.
    unfold getKeyByValue, INDICES. cbn -[String.eqb].
    repeat match goal with
           | |- context [String.eqb ?a ?b] =>
               tryif is_var b then fail
               else (let r := eval vm_compute in (String.eqb a b) in
                     change (String.eqb a b) with r)
           end.
    cbn -[String.eqb].
    repeat match goal with
           | |- context [String.eqb ?a s] =>
               destruct (String.eqb_spec a s) as [<-|_];
               [intros [= <-]; eexists; split; [done|]; by repeat constructor|]
           end.
    done.
  - intros (ticker & -> & Hin). unfold INDICES in Hin.
    repeat (apply elem_of_cons in Hin as [[= -> ->]|Hin]; [done|]).
    by apply elem_of_nil in Hin.
Qed.

Lemma identifier_truthy v key : getKeyByValue INDICES v = Some key → ToBoolean (VStr key) = true.
Proof.
  intros (ticker & _ & Hin)%getKeyByValue_INDICES. unfold INDICES in Hin.
  repeat (apply elem_of_cons in Hin as [[= -> ->]|Hin]; [done|]).
  by apply elem_of_nil in Hin.
Qed.

(** The callback on a record that is not null: skip it, file it, or raise
    the fault of the timestamp conversion. *)
Lemma quoteCallback_record h quotes quote :
  nullish quote = false →
  quoteCallback h quotes quote =
    match identifierOf quote with
    | None => Normal quotes
    | Some key =>
        match isoTimestamp h quote with
        | Normal iso => Normal (<[key := recordOf quote iso]> quotes)
        | Throw e => Throw e
        end
    end.
Proof.
  intros Hq. unfold quoteCallback, identifierOf, isoTimestamp, recordOf.
  rewrite !(Get_prop quote) by done. cbn [mbind Completion_bind].
  destruct (getKeyByValue INDICES (prop quote "symbol")) as [key|] eqn:Hkey; [|done].
  rewrite (identifier_truthy _ _ Hkey).
  destruct (DateValue h (prop quote "timestamp")) as [tv|e]; [|done].
  by destruct (toISOString tv).
Qed.

Lemma quoteCallback_null h quotes quote :
  nullish quote = true → ∃ e, quoteCallback h quotes quote = Throw e.
Proof.
  intros Hq. unfold quoteCallback.
  destruct (Get_nullish quote "symbol" Hq) as [e ->]. by exists e.
Qed.

Lemma forEach_app {S} (f : S → Value → Completion S) l1 l2 s :
  forEach f (l1 ++ l2) s = forEach f l1 s ≫= forEach f l2.
Proof.
  revert s. induction l1 as [|x l1 IH]; intros s; simpl; [done|].
  cbn [mbind Completion_bind]. destruct (f s x) as [s'|e]; [apply IH|done].
Qed.

(** A callback that raises on some element aborts the whole iteration,
    whatever the elements before and after it. *)
Lemma forEach_throw {S} (f : S → Value → Completion S) elems x :
  x ∈ elems → (∀ s, ∃ e, f s x = Throw e) → ∀ s, ∃ e, forEach f elems s = Throw e.
Proof.
  intros Hin Hx. induction elems as [|y elems IH]; [by apply elem_of_nil in Hin|].
  intros s. simpl. cbn [mbind Completion_bind].
  apply elem_of_cons in Hin as [<-|Hin].
  - destruct (Hx s) as [e ->]. by exists e.
  - destruct (f s y) as [s'|e]; [by apply IH|by exists e].
Qed.

(** Records with no known ticker leave the mapping as it is. *)
Lemma forEach_unmatched h elems quotes :
  (∀ r, r ∈ elems → nullish r = false ∧ identifierOf r = None) →
  forEach (quoteCallback h) elems quotes = Normal quotes.
Proof.
  induction elems as [|r elems IH]; intros Hall; simpl; [done|].
  destruct (Hall r) as [Hr Hid]; [by left|].
  rewrite (quoteCallback_record h quotes r Hr), Hid. cbn [mbind Completion_bind].
  apply IH. intros r' Hr'. apply Hall. by right.
Qed.

(** On well-formed records the iteration completes; the keys of its mapping
    are the initial ones and the identifiers met, and an identifier that is
    not met keeps its entry. *)
Lemma forEach_wellFormed h elems :
  Forall (wellFormedQuote h) elems →
  ∀ quotes0, ∃ quotes,
    forEach (quoteCallback h) elems quotes0 = Normal quotes ∧
    (∀ key, key ∈ dom quotes ↔
            key ∈ dom quotes0 ∨ ∃ r, r ∈ elems ∧ identifierOf r = Some key) ∧
    (∀ key, (∀ r, r ∈ elems → identifierOf r ≠ Some key) →
            quotes !! key = quotes0 !! key).
Proof.
  induction 1 as [|r elems [Hr Hts] _ IH]; intros quotes0.
  - exists quotes0. split; [done|]. split; [|done].
    intros key. split; [by left|]. intros [?|(r & Hin & _)]; [done|].
    by apply elem_of_nil in Hin.
  - simpl. rewrite (quoteCallback_record h quotes0 r Hr).
    destruct (identifierOf r) as [k|] eqn:Hid.
    + destruct Hts as [iso ->]; [done|]. cbn [mbind Completion_bind].
      destruct (IH (<[k := recordOf r iso]> quotes0)) as (quotes & -> & Hdom & Hkeep).
      exists quotes. split; [done|]. split.
      * intros key. rewrite Hdom, dom_insert_L, elem_of_union, elem_of_singleton.
        split.
        -- intros [[->|?]|(r' & Hin & Hr')]; [right; exists r|by left|right; exists r'];
             (split; [|done]); [by left|by right].
        -- intros [?|(r' & [->|Hin]%elem_of_cons & Hr')];
             [by left; right| left; left; congruence | right; by exists r'].
      * intros key Hnone. rewrite Hkeep.
        -- apply lookup_insert_ne. intros ->. by apply (Hnone r); [left|].
        -- intros r' Hin. apply Hnone. by right.
    + cbn [mbind Completion_bind].
      destruct (IH quotes0) as (quotes & -> & Hdom & Hkeep).
      exists quotes. split; [done|]. split.
      * intros key. rewrite Hdom. split.
        -- intros [?|(r' & Hin & Hr')]; [by left|right; exists r'].
           split; [by right|done].
        -- intros [?|(r' & [->|Hin]%elem_of_cons & Hr')];
             [by left|congruence|right; by exists r'].
      * intros key Hnone. apply Hkeep. intros r' Hin. apply Hnone. by right.
Qed.

(** C2 (amended). A quote body that is not an array, or is the empty array,
    makes the quote phase yield null, and then the whole snapshot is null.
    A non-empty array of records none of which has a known ticker makes the
    quote phase yield the empty mapping, not null, and the snapshot is
    present with that empty mapping. *)
Theorem quotes_absent_or_empty h env apiKey data :
  Get env "FMP_API_KEY" = Normal apiKey → ToBoolean apiKey = true →
  quoteEndpointReturns h apiKey data →
  (isNonEmptyArray data = false →
   result (fetchIndexQuotes h apiKey) = Normal None ∧
   result (fetchMarketData h env) = Normal None) ∧
  (∀ elems, data = VArr elems → elems ≠ [] →
     (∀ r, r ∈ elems → nullish r = false ∧ identifierOf r = None) →
     result (fetchIndexQuotes h apiKey) = Normal (Some ∅) ∧
     ∃ items, result (fetchMarketData h env)
              = Normal (Some (Snapshot.mk ∅ items (isoFormat (Date_now h))))).
Proof.
  intros Hget Hkey Hret. split.
  - intros Hshape.
    assert (Hfail : QuotePhaseFails h apiKey).
    { destruct Hret as (key & r & Hk & Hf & Hok & Hj). by eapply fails_shape. }
    split; [by apply fetchIndexQuotes_fails|].
    by rewrite (fetchMarketData_quote_fails h env apiKey Hget Hfail).
  - intros elems -> Hne Hnone.
    pose proof (fetchIndexQuotes_succeeds h apiKey elems ∅ Hret Hne
                  (forEach_unmatched h elems ∅ Hnone)) as Hq.
    split; [done|].
    rewrite (fetchMarketData_with_key h env apiKey Hget Hkey), Hq.
    destruct (fetchMarketNews_normal h apiKey) as [items ->]. by exists items.
Qed.

(** C3 (amended). If the timestamp of a record with a known ticker does not
    convert, the fault is caught at the boundary of the quote phase: the
    quote phase yields null, whatever the other records are, and the whole
    snapshot is null. *)
Theorem timestamp_failure_aborts_quotes h env apiKey elems quote e :
  Get env "FMP_API_KEY" = Normal apiKey →
  quoteEndpointReturns h apiKey (VArr elems) →
  quote ∈ elems → nullish quote = false → is_Some (identifierOf quote) →
  isoTimestamp h quote = Throw e →
  result (fetchIndexQuotes h apiKey) = Normal None ∧
  result (fetchMarketData h env) = Normal None.
Proof.
  intros Hget (key & r & Hk & Hf & Hok & Hj) Hin Hq [k Hid] Hts.
  assert (Hfail : QuotePhaseFails h apiKey).
  { assert (Hthrow : ∀ s, ∃ e', quoteCallback h s quote = Throw e').
    { intros s. rewrite (quoteCallback_record h s quote Hq), Hid, Hts. by exists e. }
    destruct (forEach_throw (quoteCallback h) elems quote Hin Hthrow ∅) as [e' He'].
    by eapply fails_fault. }
  split; [by apply fetchIndexQuotes_fails|].
  by rewrite (fetchMarketData_quote_fails h env apiKey Hget Hfail).
Qed.

(** C8. For a quote body of well-formed records, at least one of which has
    a known ticker, the quote phase yields a mapping whose keys are exactly
    the identifiers whose ticker is the [symbol] of some record; the other
    records are dropped, without a fault and without console output. *)
Theorem quote_keys_are_matched_identifiers h apiKey elems :
  quoteEndpointReturns h apiKey (VArr elems) →
  Forall (wellFormedQuote h) elems →
  (∃ r, r ∈ elems ∧ is_Some (identifierOf r)) →
  ∃ quotes key0,
    fetchIndexQuotes h apiKey = (Normal (Some quotes), [EFetch (quoteUrl key0)]) ∧
    ∀ key, key ∈ dom quotes ↔
           ∃ ticker r, (key, ticker) ∈ INDICES ∧ r ∈ elems ∧
                       prop r "symbol" = VStr ticker.
Proof.
  intros Hret Hwf (r0 & Hin0 & _).
  destruct (forEach_wellFormed h elems Hwf ∅) as (quotes & Hrun & Hdom & _).
  destruct (fetchIndexQuotes_run h apiKey elems quotes Hret) as [key0 Hq];
    [by intros ->; apply elem_of_nil in Hin0|done|].
  exists quotes, key0. split; [done|].
  intros key. rewrite Hdom, dom_empty_L. split.
  - intros [Hemp|(r & Hin & Hid)]; [by apply elem_of_empty in Hemp|].
    apply getKeyByValue_INDICES in Hid as (ticker & Hsym & Hidx).
    by exists ticker, r.
  - intros (ticker & r & Hidx & Hin & Hsym). right. exists r. split; [done|].
    apply getKeyByValue_INDICES. by exists ticker.
Qed.

(** C10. When several records carry the same known ticker, the entry of its
    identifier is built from the last of them in input order: for a body of
    well-formed records, the entry is the record of [quote] as soon as no
    record after [quote] has the same identifier, whatever comes before. *)
Theorem last_duplicate_wins h apiKey before quote after key iso :
  quoteEndpointReturns h apiKey (VArr (before ++ quote :: after)) →
  Forall (wellFormedQuote h) (before ++ quote :: after) →
  identifierOf quote = Some key → isoTimestamp h quote = Normal iso →
  (∀ r, r ∈ after → identifierOf r ≠ Some key) →
  ∃ quotes, result (fetchIndexQuotes h apiKey) = Normal (Some quotes) ∧
            quotes !! key = Some (recordOf quote iso).
Proof.
  intros Hret Hwf Hid Hts Hlast.
  apply Forall_app in Hwf as [Hbefore Hrest].
  apply Forall_cons in Hrest as [[Hq _] Hafter].
  destruct (forEach_wellFormed h before Hbefore ∅) as (q1 & Hrun1 & _).
  destruct (forEach_wellFormed h after Hafter (<[key := recordOf quote iso]> q1))
    as (quotes & Hrun2 & _ & Hkeep).
  exists quotes. split.
  - apply (fetchIndexQuotes_succeeds h apiKey _ quotes Hret); [by destruct before|].
    rewrite forEach_app, Hrun1. cbn [mbind Completion_bind forEach].
    by rewrite (quoteCallback_record h q1 quote Hq), Hid, Hts.
  - rewrite (Hkeep key Hlast). apply lookup_insert_eq.
Qed.

(** ** News normalisation *)

Lemma substring_0_split n s :
  ∃ rest, s = String.substring 0 n s +:+ rest ∧
          String.length (String.substring 0 n s) = Nat.min n (String.length s).
Proof.
  revert s. induction n as [|n IH]; intros s.
  - exists s. by destruct s.
  - destruct s as [|c s]; [by exists ""|].
    destruct (IH s) as (rest & Heq & Hlen). exists rest.
    split; [exact (f_equal (String c) Heq)|exact (f_equal S Hlen)].
Qed.

Lemma articleCallback_record article :
  nullish article = false →
  articleCallback article =
    summaryOf (prop article "text") ≫= λ summary,
      Normal (NewsItem.mk (prop article "title") (prop article "site")
                (prop article "publishedDate") (prop article "url") summary).
Proof. intros Ha. unfold articleCallback. by rewrite !(Get_prop article). Qed.

Lemma articleCallback_wellFormed article :
  wellFormedArticle article → ∃ item, articleCallback article = Normal item.
Proof.
  intros [Ha Htext]. rewrite (articleCallback_record article Ha). unfold summaryOf.
  destruct (ToBoolean (prop article "text")); [|by eexists].
  destruct Htext as [s ->]; [done|]. by eexists.
Qed.

Lemma mapArray_wellFormed data :
  Forall wellFormedArticle data →
  ∃ items, mapArray articleCallback data = Normal items ∧
           Forall2 (λ article item, articleCallback article = Normal item) data items.
Proof.
  unfold mapArray. induction 1 as [|article data Ha _ (items & Hrun & Hall)].
  - exists []. by split.
  - destruct (articleCallback_wellFormed article Ha) as [item Hitem].
    exists (item :: items). simpl. rewrite Hitem, Hrun. split; [done|].
    by constructor.
Qed.

(** C6 (amended). The summary of an article whose text is a non-empty
    string is the first 200 characters of the text (the whole text when it
    has at most 200) followed by the marker, whether or not anything was cut
    off; an absent or empty text gives the empty summary. *)
Theorem summary_is_prefix_and_marker article :
  nullish article = false →
  (∀ s, prop article "text" = VStr s → s ≠ "" →
     ∃ item first rest,
       articleCallback article = Normal item ∧
       s = first +:+ rest ∧
       String.length first = Nat.min 200 (String.length s) ∧
       NewsItem.summary item = first +:+ "...") ∧
  (prop article "text" = VUndefined ∨ prop article "text" = VNull ∨
   prop article "text" = VStr "" →
     ∃ item, articleCallback article = Normal item ∧ NewsItem.summary item = "").
Proof.
  intros Ha. rewrite (articleCallback_record article Ha). split.
  - intros s -> Hs. destruct (substring_0_split 200 s) as (rest & Heq & Hlen).
    eexists _, (substring200 s), rest. unfold summaryOf.
    destruct s as [|c s]; [done|]. by cbn [ToBoolean String.eqb negb mbind Completion_bind].
  - intros [->|[->| ->]]; by eexists.
Qed.

(** C7. For a news body of more than five well-formed articles the news
    phase yields exactly five items, the normalisations of the first five
    articles in their order; for a body of one to five articles it yields
    the normalisation of each, in order. *)
Theorem news_first_five_in_order h apiKey elems :
  newsEndpointReturns h apiKey (VArr elems) → elems ≠ [] →
  Forall wellFormedArticle (take 5 elems) →
  ∃ items,
    result (fetchMarketNews h apiKey) = Normal (Some items) ∧
    ((5 < length elems)%nat →
       length items = 5%nat ∧
       Forall2 (λ article item, articleCallback article = Normal item)
               (take 5 elems) items) ∧
    ((length elems ≤ 5)%nat →
       Forall2 (λ article item, articleCallback article = Normal item) elems items).
Proof.
  intros Hret Hne Hwf.
  destruct (mapArray_wellFormed (take 5 elems) Hwf) as (items & Hrun & Hall).
  exists items. split; [by eapply fetchMarketNews_succeeds|]. split.
  - intros Hlen. split; [|done].
    rewrite <- (Forall2_length _ _ _ Hall), length_take. lia.
  - intros Hlen. by rewrite take_ge in Hall.
Qed.

(** ** Concrete runs *)

Example scenario_one_quote_no_news :
  fetchMarketData (exampleHost (answer (VArr [sampleQuote])) (answer (VArr []))) exampleEnv
  = (Normal (Some (Snapshot.mk {["SP500" := sampleRecord]} None "2023-11-14T22:13:20.000Z")),
     [EFetch (quoteUrl "k"); EFetch (newsUrl "k")]).
Proof. vm_compute. reflexivity. Qed.

Example scenario_full_snapshot :
  result (fetchMarketData
            (exampleHost (answer (VArr [untrackedQuote; sampleQuote]))
                         (answer (VArr [shortArticle]))) exampleEnv)
  = Normal (Some (Snapshot.mk {["SP500" := sampleRecord]} (Some [shortItem])
                    "2023-11-14T22:13:20.000Z")).
Proof. vm_compute. reflexivity. Qed.

Example scenario_no_environment :
  fetchMarketData (exampleHost (answer (VArr [sampleQuote])) (answer (VArr []))) VUndefined
  = (Normal None,
     [EError ["FMP fetch failed:";
              "Cannot read properties of undefined (reading 'FMP_API_KEY')"]]).
Proof. vm_compute. reflexivity. Qed.

Example scenario_quote_status_503 :
  fetchMarketData (exampleHost (Responded (mkResponse 503 (Normal VNull)))
                               (answer (VArr [shortArticle]))) exampleEnv
  = (Normal None, [EFetch (quoteUrl "k"); EWarn ["FMP quote API returned 503"]]).
Proof. vm_compute. reflexivity. Qed.

Example scenario_null_article :
  fetchMarketData (exampleHost (answer (VArr [sampleQuote]))
                               (answer (VArr [shortArticle; VNull]))) exampleEnv
  = (Normal (Some (Snapshot.mk {["SP500" := sampleRecord]} None "2023-11-14T22:13:20.000Z")),
     [EFetch (quoteUrl "k"); EFetch (newsUrl "k");
      EWarn ["FMP market news fetch failed:";
             "Cannot read properties of null (reading 'title')"]]).
Proof. vm_compute. reflexivity. Qed.

(** *** Counterexamples *)

(** A non-empty quote body without any known ticker: the quote phase yields
    the empty mapping, not null, and the snapshot is present. *)
Lemma unmatched_quotes_are_not_absent :
  identifierOf untrackedQuote = None ∧
  result (fetchIndexQuotes (exampleHost (answer (VArr [untrackedQuote])) (answer (VArr [])))
            (VStr "k")) = Normal (Some ∅) ∧
  result (fetchIndexQuotes (exampleHost (answer (VArr [untrackedQuote])) (answer (VArr [])))
            (VStr "k")) ≠ Normal None ∧
  result (fetchMarketData (exampleHost (answer (VArr [untrackedQuote])) (answer (VArr [])))
            exampleEnv) ≠ Normal None.
Proof. vm_compute. repeat split; discriminate. Qed.

(** A record whose timestamp converts, followed by one with a known ticker
    and no timestamp: the quote phase yields null, not the mapping holding
    the first record. *)
Lemma undated_quote_discards_the_others :
  identifierOf sampleQuote = Some "SP500" ∧
  isoTimestamp (exampleHost (answer (VArr [sampleQuote; undatedQuote])) (answer (VArr [])))
    sampleQuote = Normal "1970-01-20T16:13:20.000Z" ∧
  isoTimestamp (exampleHost (answer (VArr [sampleQuote; undatedQuote])) (answer (VArr [])))
    undatedQuote = Throw (RangeError "Invalid time value") ∧
  result (fetchIndexQuotes
            (exampleHost (answer (VArr [sampleQuote; undatedQuote])) (answer (VArr [])))
            (VStr "k")) = Normal None ∧
  result (fetchIndexQuotes
            (exampleHost (answer (VArr [sampleQuote; undatedQuote])) (answer (VArr [])))
            (VStr "k")) ≠ Normal (Some {["SP500" := sampleRecord]}).
Proof. vm_compute. repeat split; discriminate. Qed.

(** A two-character text: nothing is cut off, and the marker is appended
    all the same. *)
Lemma short_text_gets_the_marker :
  articleCallback shortArticle = Normal shortItem ∧
  NewsItem.summary shortItem = "hi..." ∧
  NewsItem.summary shortItem ≠ claimedSummary (prop shortArticle "text").
Proof. vm_compute. repeat split; discriminate. Qed.

(** *** Instances of the theorems *)

Lemma no_credential_no_network_witness :
  fetchMarketData (exampleHost (answer (VArr [sampleQuote])) (answer (VArr []))) (VObj [])
  = (Normal None, [EWarn ["FMP_API_KEY not configured"]]) ∧
  ∀ ev, ev ∈ trace (fetchMarketData
                      (exampleHost (answer (VArr [sampleQuote])) (answer (VArr [])))
                      (VObj [])) → ¬ isFetch ev.
Proof.
  apply (no_credential_no_network
           (exampleHost (answer (VArr [sampleQuote])) (answer (VArr []))) (VObj [])
           VUndefined); reflexivity.
Defined.

Lemma quote_failure_is_fatal_witness :
  result (fetchMarketData
            (exampleHost (Rejected (TypeError "fetch failed")) (answer (VArr [shortArticle])))
            exampleEnv) = Normal None ∧
  ∀ ev, ev ∈ trace (fetchMarketData
                      (exampleHost (Rejected (TypeError "fetch failed"))
                                   (answer (VArr [shortArticle])))
                      exampleEnv) → ¬ isNewsFetch ev.
Proof.
  apply (quote_failure_is_fatal
           (exampleHost (Rejected (TypeError "fetch failed")) (answer (VArr [shortArticle])))
           exampleEnv (VStr "k")); [reflexivity|].
  apply (fails_transport _ _ _ _ "k" (TypeError "fetch failed")); reflexivity.
Defined.

Lemma news_failure_is_not_fatal_witness :
  result (fetchMarketData
            (exampleHost (answer (VArr [sampleQuote])) (Responded (mkResponse 500 (Normal VNull))))
            exampleEnv)
  = Normal (Some (Snapshot.mk {["SP500" := sampleRecord]} None "2023-11-14T22:13:20.000Z")).
Proof.
  apply (news_failure_is_not_fatal
           (exampleHost (answer (VArr [sampleQuote])) (Responded (mkResponse 500 (Normal VNull))))
           exampleEnv (VStr "k") {["SP500" := sampleRecord]});
    [reflexivity|reflexivity|vm_compute; reflexivity|].
  apply (fails_status _ _ _ _ "k" (mkResponse 500 (Normal VNull))); reflexivity.
Defined.

Lemma quotes_absent_or_empty_witness :
  result (fetchIndexQuotes (exampleHost (answer (VArr [untrackedQuote])) (answer (VArr [])))
            (VStr "k")) = Normal (Some ∅) ∧
  ∃ items,
    result (fetchMarketData (exampleHost (answer (VArr [untrackedQuote])) (answer (VArr [])))
              exampleEnv)
    = Normal (Some (Snapshot.mk ∅ items "2023-11-14T22:13:20.000Z")).
Proof.
  apply (proj2 (quotes_absent_or_empty
                  (exampleHost (answer (VArr [untrackedQuote])) (answer (VArr [])))
                  exampleEnv (VStr "k") (VArr [untrackedQuote])
                  eq_refl eq_refl
                  (ex_intro _ "k" (ex_intro _ (mkResponse 200 (Normal (VArr [untrackedQuote])))
                     (conj eq_refl (conj eq_refl (conj eq_refl eq_refl))))))
               [untrackedQuote] eq_refl).
  - discriminate.
  - intros r Hr. apply list_elem_of_singleton in Hr as ->. split; reflexivity.
Defined.

Lemma timestamp_failure_aborts_quotes_witness :
  result (fetchIndexQuotes
            (exampleHost (answer (VArr [sampleQuote; undatedQuote])) (answer (VArr [])))
            (VStr "k")) = Normal None ∧
  result (fetchMarketData
            (exampleHost (answer (VArr [sampleQuote; undatedQuote])) (answer (VArr [])))
            exampleEnv) = Normal None.
Proof.
  apply (timestamp_failure_aborts_quotes
           (exampleHost (answer (VArr [sampleQuote; undatedQuote])) (answer (VArr [])))
           exampleEnv (VStr "k") [sampleQuote; undatedQuote] undatedQuote
           (RangeError "Invalid time value")).
  - reflexivity.
  - exists "k", (mkResponse 200 (Normal (VArr [sampleQuote; undatedQuote]))).
    repeat split; reflexivity.
  - right. left.
  - reflexivity.
  - exists "NASDAQ". reflexivity.
  - reflexivity.
Defined.

Lemma quote_keys_are_matched_identifiers_witness :
  ∃ quotes key0,
    fetchIndexQuotes
      (exampleHost (answer (VArr [untrackedQuote; sampleQuote])) (answer (VArr [])))
      (VStr "k") = (Normal (Some quotes), [EFetch (quoteUrl key0)]) ∧
    ∀ key, key ∈ dom quotes ↔
           ∃ ticker r, (key, ticker) ∈ INDICES ∧ r ∈ [untrackedQuote; sampleQuote] ∧
                       prop r "symbol" = VStr ticker.
Proof.
  apply (quote_keys_are_matched_identifiers
           (exampleHost (answer (VArr [untrackedQuote; sampleQuote])) (answer (VArr [])))
           (VStr "k") [untrackedQuote; sampleQuote]).
  - exists "k", (mkResponse 200 (Normal (VArr [untrackedQuote; sampleQuote]))).
    repeat split; reflexivity.
  - repeat constructor; intros _; by eexists.
  - exists sampleQuote. split; [right; left|]. exists "SP500". reflexivity.
Defined.

Lemma last_duplicate_wins_witness :
  ∃ quotes,
    result (fetchIndexQuotes
              (exampleHost (answer (VArr [sampleQuote; laterQuote; untrackedQuote]))
                           (answer (VArr [])))
              (VStr "k")) = Normal (Some quotes) ∧
    quotes !! "SP500" = Some laterRecord.
Proof.
  apply (last_duplicate_wins
           (exampleHost (answer (VArr [sampleQuote; laterQuote; untrackedQuote]))
                        (answer (VArr [])))
           (VStr "k") [sampleQuote] laterQuote [untrackedQuote] "SP500"
           "1970-01-20T16:13:20.060Z").
  - exists "k", (mkResponse 200 (Normal (VArr [sampleQuote; laterQuote; untrackedQuote]))).
    repeat split; reflexivity.
  - repeat constructor; intros _; by eexists.
  - reflexivity.
  - reflexivity.
  - intros r Hr. apply list_elem_of_singleton in Hr as ->. discriminate.
Defined.

Lemma summary_is_prefix_and_marker_witness :
  ∃ item first rest,
    articleCallback shortArticle = Normal item ∧
    "hi" = first +:+ rest ∧
    String.length first = Nat.min 200 (String.length "hi") ∧
    NewsItem.summary item = first +:+ "...".
Proof.
  apply (proj1 (summary_is_prefix_and_marker shortArticle eq_refl) "hi" eq_refl).
  discriminate.
Defined.

Lemma news_first_five_in_order_witness :
  ∃ items,
    result (fetchMarketNews
              (exampleHost (answer (VArr [sampleQuote]))
                 (answer (VArr [titled "a"; titled "b"; titled "c"; titled "d";
                                titled "e"; titled "f"])))
              (VStr "k")) = Normal (Some items) ∧
    items = [titledItem "a"; titledItem "b"; titledItem "c"; titledItem "d"; titledItem "e"].
Proof.
  destruct (news_first_five_in_order
              (exampleHost (answer (VArr [sampleQuote]))
                 (answer (VArr [titled "a"; titled "b"; titled "c"; titled "d";
                                titled "e"; titled "f"])))
              (VStr "k")
              [titled "a"; titled "b"; titled "c"; titled "d"; titled "e"; titled "f"])
    as (items & Hrun & _).
  - exists "k", (mkResponse 200
                   (Normal (VArr [titled "a"; titled "b"; titled "c"; titled "d";
                                  titled "e"; titled "f"]))).
    repeat split; reflexivity.
  - discriminate.
  - repeat constructor; discriminate.
  - exists items. split; [exact Hrun|].
    vm_compute in Hrun. by injection Hrun as <-.
Defined.

(** * Further properties *)

(** ** [getKeyByValue] on any table *)


Lemma assoc_app_l key (l1 l2 : list (string * string)) :
  key ∈ map fst l1 → ∃ s, assoc key (l1 ++ l2) = Some s ∧ (key, s) ∈ l1.
Proof.
  induction l1 as [|[k v] l1 IH]; simpl; [by intros ?%elem_of_nil|].
  intros Hin. destruct (String.eqb_spec k key) as [->|Hne].
  - exists v. split; [done|by left].
  - apply elem_of_cons in Hin as [Heq|Hin]; [by destruct Hne|].
    destruct (IH Hin) as (s & Hs & Hin'). exists s. split; [done|by right].
Qed.

Lemma assoc_app_r key (l1 l2 : list (string * string)) :
  key ∉ map fst l1 → assoc key (l1 ++ l2) = assoc key l2.
Proof.
  induction l1 as [|[k v] l1 IH]; simpl; [done|].
  intros Hnin. destruct (String.eqb_spec k key) as [->|Hne].
  - destruct Hnin. by left.
  - apply IH. intros Hin. apply Hnin. by right.
Qed.

Lemma find_first {A} (P : A → bool) l1 x l2 :
  (∀ y, y ∈ l1 → P y = false) → P x = true → List.find P (l1 ++ x :: l2) = Some x.
Proof.
  intros Hskip Hhit. induction l1 as [|y l1 IH]; simpl; [by rewrite Hhit|].
  rewrite Hskip by (by left). apply IH. intros z Hz. apply Hskip. by right.
Qed.





(** X3. When several keys are mapped to the value looked up,
    [getKeyByValue] returns the first of them in the order of the keys: the
    key [key] of a binding before which no binding has the same value. *)
Theorem getKeyByValue_first_match before key s after :
  key ∉ map fst before → (∀ k v, (k, v) ∈ before → v ≠ s) →
  getKeyByValue (before ++ (key, s) :: after) (VStr s) = Some key.
Proof.
  intros Hfresh Hother. unfold getKeyByValue. rewrite map_app. simpl.
  apply find_first.
  - intros k Hk.
    destruct (assoc_app_l k before ((key, s) :: after) Hk) as (v & -> & Hin).
    simpl. apply String.eqb_neq. by apply (Hother k).
  - rewrite (assoc_app_r key before _ Hfresh). simpl.
    rewrite String.eqb_refl. simpl. apply String.eqb_refl.
Qed.

(** ** More on the quote phase *)

(** The quote phase on a 2xx answer with a parsed body, in full. *)
Lemma fetchIndexQuotes_body h apiKey data :
  quoteEndpointReturns h apiKey data →
  ∃ key, ToString h apiKey = Normal key ∧
    fetchIndexQuotes h apiKey =
      match data with
      | VArr ((_ :: _) as elems) =>
          match forEach (quoteCallback h) elems ∅ with
          | Normal quotes => (Normal (Some quotes), [EFetch (quoteUrl key)])
          | Throw e =>
              (Normal None,
               [EFetch (quoteUrl key);
                EWarn ["FMP index quotes fetch failed:"; errMessage e]])
          end
      | _ => (Normal None, [EFetch (quoteUrl key)])
      end.
Proof.
  intros (key & r & Hk & Hf & Hok & Hj). exists key. split; [done|].
  unfold fetchIndexQuotes. run_phase. rewrite Hk, Hf, Hok, Hj. simpl.
  destruct data as [| | | | |[|x elems]|]; try done.
  by destruct (forEach (quoteCallback h) (x :: elems) ∅).
Qed.

(** A mapping can only come from a 2xx answer whose body is a non-empty
    array on which the iteration completes. *)
Lemma fetchIndexQuotes_Some_inv h apiKey quotes :
  result (fetchIndexQuotes h apiKey) = Normal (Some quotes) →
  ∃ elems, quoteEndpointReturns h apiKey (VArr elems) ∧ elems ≠ [] ∧
           forEach (quoteCallback h) elems ∅ = Normal quotes.
Proof.
  unfold fetchIndexQuotes. run_phase.
  destruct (ToString h apiKey) as [key|e] eqn:Hk; [|done].
  destruct (fetch h (quoteUrl key)) as [e|r] eqn:Hf; [done|].
  destruct (ok r) eqn:Hok; simpl; [|done].
  destruct (json r) as [data|e] eqn:Hj; [|done].
  destruct data as [| | | | |[|x elems]|]; try done.
  destruct (forEach (quoteCallback h) (x :: elems) ∅) as [q|e] eqn:Hq; [|done].
  intros [= <-]. exists (x :: elems). split; [by exists key, r|done].
Qed.

(** What a completed iteration tells: no record was null, and every entry
    of the mapping either was there at the start or is the record of an
    element with that identifier whose timestamp converted. *)
Lemma forEach_quotes_inv h elems :
  ∀ quotes0 quotes, forEach (quoteCallback h) elems quotes0 = Normal quotes →
  Forall (λ r, nullish r = false) elems ∧
  ∀ key rec, quotes !! key = Some rec →
    quotes0 !! key = Some rec ∨
    ∃ quote iso, quote ∈ elems ∧ identifierOf quote = Some key ∧
                 isoTimestamp h quote = Normal iso ∧ rec = recordOf quote iso.
Proof.
  induction elems as [|r elems IH]; intros quotes0 quotes; simpl.
  - intros [= <-]. split; [done|]. by left.
  - destruct (nullish r) eqn:Hr.
    { by destruct (quoteCallback_null h quotes0 r Hr) as [e ->]. }
    rewrite (quoteCallback_record h quotes0 r Hr).
    destruct (identifierOf r) as [k|] eqn:Hid.
    + destruct (isoTimestamp h r) as [iso|e] eqn:Hts; [|done].
      cbn [mbind Completion_bind]. intros [Hall Hent]%IH. split; [by constructor|].
      intros key rec [Hin|(quote & iso' & Hin & ?)]%Hent.
      * destruct (decide (k = key)) as [->|Hne].
        -- rewrite lookup_insert_eq in Hin. injection Hin as <-.
           right. exists r, iso. split; [by left|done].
        -- rewrite lookup_insert_ne in Hin by done. by left.
      * right. exists quote, iso'. split; [by right|done].
    + cbn [mbind Completion_bind]. intros [Hall Hent]%IH. split; [by constructor|].
      intros key rec [Hin|(quote & iso' & Hin & ?)]%Hent; [by left|].
      right. exists quote, iso'. split; [by right|done].
Qed.

(** The effect of a completed iteration is to lay a fixed mapping over the
    initial one. *)
Lemma forEach_quotes_patch h elems quotes1 quotes :
  forEach (quoteCallback h) elems quotes1 = Normal quotes →
  ∃ patch, ∀ quotes0, forEach (quoteCallback h) elems quotes0 = Normal (patch ∪ quotes0).
Proof.
  revert quotes1 quotes. induction elems as [|r elems IH]; intros quotes1 quotes; simpl.
  - intros _. exists ∅. intros quotes0. by rewrite (left_id_L ∅ (∪)).
  - destruct (nullish r) eqn:Hr.
    { by destruct (quoteCallback_null h quotes1 r Hr) as [e ->]. }
    rewrite (quoteCallback_record h quotes1 r Hr).
    destruct (identifierOf r) as [k|] eqn:Hid.
    + destruct (isoTimestamp h r) as [iso|e] eqn:Hts; [|done].
      cbn [mbind Completion_bind]. intros [patch Hpatch]%IH.
      exists (patch ∪ {[k := recordOf r iso]}). intros quotes0.
      rewrite (quoteCallback_record h quotes0 r Hr), Hid, Hts.
      cbn [mbind Completion_bind].
      by rewrite Hpatch, insert_union_singleton_l, (assoc_L (∪)).
    + cbn [mbind Completion_bind]. intros [patch Hpatch]%IH.
      exists patch. intros quotes0.
      rewrite (quoteCallback_record h quotes0 r Hr), Hid.
      cbn [mbind Completion_bind]. apply Hpatch.
Qed.

(** X4. A null element in the quote body makes the quote phase yield null,
    whatever the other records are, and then the whole snapshot is null. *)
Theorem null_quote_aborts_quotes h env apiKey elems quote :
  Get env "FMP_API_KEY" = Normal apiKey →
  quoteEndpointReturns h apiKey (VArr elems) →
  quote ∈ elems → nullish quote = true →
  result (fetchIndexQuotes h apiKey) = Normal None ∧
  result (fetchMarketData h env) = Normal None.
Proof.
  intros Hget (key & r & Hk & Hf & Hok & Hj) Hin Hq.
  assert (Hfail : QuotePhaseFails h apiKey).
  { assert (Hthrow : ∀ s, ∃ e', quoteCallback h s quote = Throw e').
    { intros s. by apply quoteCallback_null. }
    destruct (forEach_throw (quoteCallback h) elems quote Hin Hthrow ∅) as [e' He'].
    by eapply fails_fault. }
  split; [by apply fetchIndexQuotes_fails|].
  by rewrite (fetchMarketData_quote_fails h env apiKey Hget Hfail).
Qed.


(** X6. The mapping that the quote phase yields has its keys among the
    five identifiers of [INDICES], hence at most five entries, however many
    records the body holds. *)
Theorem quote_mapping_at_most_five h apiKey quotes :
  result (fetchIndexQuotes h apiKey) = Normal (Some quotes) →
  (∀ key, key ∈ dom quotes → key ∈ map fst INDICES) ∧ (size quotes ≤ 5)%nat.
Proof.
  intros (elems & _ & _ & Hrun)%fetchIndexQuotes_Some_inv.
  apply forEach_quotes_inv in Hrun as [_ Hfrom].
  assert (Hkeys : ∀ key, key ∈ dom quotes → key ∈ map fst INDICES).
  { intros key [rec Hent]%elem_of_dom.
    destruct (Hfrom key rec Hent) as [Hemp|(quote & iso & _ & Hid & _)].
    { by rewrite lookup_empty in Hemp. }
    apply getKeyByValue_INDICES in Hid as (ticker & _ & Hidx).
    apply list_elem_of_In, in_map_iff. exists (key, ticker).
    split; [done|by apply list_elem_of_In]. }
  split; [done|].
  rewrite <- (size_dom (D := gset string) quotes).
  transitivity (size (list_to_set (C := gset string) (map fst INDICES))).
  - apply subseteq_size. intros key Hkey. apply elem_of_list_to_set. by apply Hkeys.
  - rewrite size_list_to_set; [done|].
    apply (bool_decide_unpack (NoDup (map fst INDICES))). by vm_compute.
Qed.

(** X7. Normalising two bodies one after the other is normalising them
    apart and laying the mapping of the second over the mapping of the
    first. *)
Theorem quotes_of_concatenation h elems1 elems2 quotes1 quotes2 :
  forEach (quoteCallback h) elems1 ∅ = Normal quotes1 →
  forEach (quoteCallback h) elems2 ∅ = Normal quotes2 →
  forEach (quoteCallback h) (elems1 ++ elems2) ∅ = Normal (quotes2 ∪ quotes1).
Proof.
  intros H1 H2. rewrite forEach_app, H1. cbn [mbind Completion_bind].
  destruct (forEach_quotes_patch h elems2 ∅ quotes2 H2) as [patch Hpatch].
  rewrite Hpatch. f_equal. f_equal.
  rewrite Hpatch in H2. injection H2 as <-. by rewrite (right_id_L ∅ (∪)).
Qed.

(** X8. Records whose ticker is not tracked play no part: on a body without
    null elements, the iteration gives what it gives on the tracked records
    alone, be it a mapping or a fault; in particular the timestamp of an
    untracked record is never looked at. *)
Theorem untracked_quotes_are_ignored h elems quotes0 :
  Forall (λ r, nullish r = false) elems →
  forEach (quoteCallback h) elems quotes0
  = forEach (quoteCallback h) (List.filter isTracked elems) quotes0.
Proof.
  intros Hall. revert quotes0. induction Hall as [|r elems Hr _ IH]; intros quotes0; [done|].
  simpl. unfold isTracked at 1.
  destruct (identifierOf r) as [k|] eqn:Hid.
  - simpl. destruct (quoteCallback h quotes0 r) as [q|e]; [|done].
    cbn [mbind Completion_bind]. apply IH.
  - rewrite (quoteCallback_record h quotes0 r Hr), Hid. cbn [mbind Completion_bind].
    apply IH.
Qed.

(** ** More on the news phase *)

(** The news phase on a 2xx answer with a parsed body, in full. *)
Lemma fetchMarketNews_body h apiKey data :
  newsEndpointReturns h apiKey data →
  ∃ key, ToString h apiKey = Normal key ∧
    fetchMarketNews h apiKey =
      match data with
      | VArr ((_ :: _) as elems) =>
          match mapArray articleCallback (take 5 elems) with
          | Normal items => (Normal (Some items), [EFetch (newsUrl key)])
          | Throw e =>
              (Normal None,
               [EFetch (newsUrl key);
                EWarn ["FMP market news fetch failed:"; errMessage e]])
          end
      | _ => (Normal None, [EFetch (newsUrl key)])
      end.
Proof.
  intros (key & r & Hk & Hf & Hok & Hj). exists key. split; [done|].
  unfold fetchMarketNews. run_phase. rewrite Hk, Hf, Hok, Hj. simpl.
  destruct data as [| | | | |[|x elems]|]; try done.
  by destruct (mapArray articleCallback (take 5 (x :: elems))).
Qed.

Lemma fetchMarketNews_Some_inv h apiKey items :
  result (fetchMarketNews h apiKey) = Normal (Some items) →
  ∃ elems, newsEndpointReturns h apiKey (VArr elems) ∧ elems ≠ [] ∧
           mapArray articleCallback (take 5 elems) = Normal items.
Proof.
  unfold fetchMarketNews. run_phase.
  destruct (ToString h apiKey) as [key|e] eqn:Hk; [|done].
  destruct (fetch h (newsUrl key)) as [e|r] eqn:Hf; [done|].
  destruct (ok r) eqn:Hok; simpl; [|done].
  destruct (json r) as [data|e] eqn:Hj; [|done].
  destruct data as [| | | | |[|x elems]|]; try done.
  destruct (mapArray articleCallback (take 5 (x :: elems))) as [l|e] eqn:Hq; [|done].
  intros [= <-]. exists (x :: elems). split; [by exists key, r|done].
Qed.

Lemma mapArray_inv {A} (f : Value → Completion A) data items :
  mapArray f data = Normal items →
  Forall2 (λ article item, f article = Normal item) data items.
Proof.
  unfold mapArray. revert items. induction data as [|a data IH]; intros items; simpl.
  - intros [= <-]. constructor.
  - destruct (f a) as [item|e] eqn:Ha; [|done].
    destruct (sequenceC (map f data)) as [l|e]; [|done].
    intros [= <-]. constructor; [done|by apply IH].
Qed.

Lemma mapArray_throw {A} (f : Value → Completion A) data article e :
  article ∈ data → f article = Throw e → ∃ e', mapArray f data = Throw e'.
Proof.
  unfold mapArray. intros Hin Ha. induction data as [|a data IH]; simpl.
  - by apply elem_of_nil in Hin.
  - apply elem_of_cons in Hin as [<-|Hin].
    + rewrite Ha. by exists e.
    + destruct (f a) as [item|e1]; [|by exists e1].
      destruct (IH Hin) as [e' ->]. by exists e'.
Qed.

Lemma length_append (a b : string) :
  String.length (a +:+ b) = (String.length a + String.length b)%nat.
Proof. induction a as [|c a IH]; simpl; [done|]. by rewrite IH. Qed.

Lemma summaryOf_length text summary :
  summaryOf text = Normal summary → (String.length summary ≤ 203)%nat.
Proof.
  unfold summaryOf. destruct (ToBoolean text); [|intros [= <-]; simpl; lia].
  destruct text as [| | | |s| |]; try done. intros [= <-].
  destruct (substring_0_split 200 s) as (_ & _ & Hlen).
  unfold substring200. rewrite length_append, Hlen.
  change (String.length "...") with 3%nat. lia.
Qed.

Lemma articleCallback_inv article item :
  articleCallback article = Normal item →
  nullish article = false ∧
  summaryOf (prop article "text") = Normal (NewsItem.summary item) ∧
  item = NewsItem.mk (prop article "title") (prop article "site")
           (prop article "publishedDate") (prop article "url") (NewsItem.summary item).
Proof.
  destruct (nullish article) eqn:Ha.
  { unfold articleCallback. by destruct (Get_nullish article "title" Ha) as [e ->]. }
  rewrite (articleCallback_record article Ha).
  destruct (summaryOf (prop article "text")) as [summary|e]; [|done].
  by intros [= <-].
Qed.

Lemma articleCallback_malformed article :
  malformedArticle article → ∃ e, articleCallback article = Throw e.
Proof.
  intros [Ha|[Htruthy Hstr]].
  - unfold articleCallback. destruct (Get_nullish article "title" Ha) as [e ->].
    by exists e.
  - destruct (nullish article) eqn:Ha.
    { unfold articleCallback. destruct (Get_nullish article "title" Ha) as [e ->].
      by exists e. }
    rewrite (articleCallback_record article Ha). unfold summaryOf. rewrite Htruthy.
    destruct (prop article "text") as [| | | |s| |]; try by eexists.
    by destruct (Hstr s).
Qed.

(** X9. A news sequence that the news phase yields is never empty and never
    longer than five: it has as many items as the body has articles, up to
    five. *)
Theorem news_between_one_and_five h apiKey items :
  result (fetchMarketNews h apiKey) = Normal (Some items) →
  (1 ≤ length items ≤ 5)%nat ∧
  ∃ elems, newsEndpointReturns h apiKey (VArr elems) ∧
           length items = Nat.min 5 (length elems).
Proof.
  intros (elems & Hret & Hne & Hrun)%fetchMarketNews_Some_inv.
  apply mapArray_inv, Forall2_length in Hrun. rewrite length_take in Hrun.
  split; [|by exists elems].
  assert (length elems ≠ 0%nat) by (by destruct elems). lia.
Qed.

(** X10. The item at each position of the news sequence is made from the
    article at the same position of the body: title, site and url are the
    article's own, [publishedAt] is its [publishedDate], unmodified, and the
    summary has at most 203 characters. *)
Theorem news_items_copy_the_articles h apiKey items i item :
  result (fetchMarketNews h apiKey) = Normal (Some items) →
  items !! i = Some item →
  ∃ elems article,
    newsEndpointReturns h apiKey (VArr elems) ∧ elems !! i = Some article ∧
    NewsItem.title item = prop article "title" ∧
    NewsItem.site item = prop article "site" ∧
    NewsItem.publishedAt item = prop article "publishedDate" ∧
    NewsItem.url item = prop article "url" ∧
    (String.length (NewsItem.summary item) ≤ 203)%nat.
Proof.
  intros (elems & Hret & _ & Hrun)%fetchMarketNews_Some_inv Hitem.
  apply mapArray_inv in Hrun.
  destruct (Forall2_lookup_r _ _ _ _ _ Hrun Hitem) as (article & Hart & Hcb).
  apply lookup_take_Some in Hart as [Hart _].
  apply articleCallback_inv in Hcb as (_ & Hsum & Heq).
  exists elems, article. repeat (split; [done|]).
  rewrite Heq. simpl. repeat (split; [done|]). by eapply summaryOf_length.
Qed.

(** X11. Articles after the fifth play no part: two bodies with the same
    first five articles give the same outcome of the news phase, be it a
    sequence or null, whatever follows, well formed or not. *)
Theorem news_ignores_articles_beyond_the_fifth h apiKey elems h' apiKey' elems' :
  newsEndpointReturns h apiKey (VArr elems) →
  newsEndpointReturns h' apiKey' (VArr elems') →
  take 5 elems = take 5 elems' →
  result (fetchMarketNews h apiKey) = result (fetchMarketNews h' apiKey').
Proof.
  intros (key & _ & ->)%fetchMarketNews_body (key' & _ & ->)%fetchMarketNews_body Heq.
  destruct elems as [|x elems], elems' as [|x' elems']; try done.
  rewrite Heq. by destruct (mapArray articleCallback (take 5 (x' :: elems'))).
Qed.

(** X12. A malformed article among the first five (a null element, or a
    [text] that is truthy and not a string) makes the news phase yield null
    for all the articles, with one warning after the request. *)
Theorem malformed_article_voids_news h apiKey elems article :
  newsEndpointReturns h apiKey (VArr elems) →
  article ∈ take 5 elems → malformedArticle article →
  ∃ key msg,
    fetchMarketNews h apiKey
    = (Normal None,
       [EFetch (newsUrl key); EWarn ["FMP market news fetch failed:"; msg]]).
Proof.
  intros (key & _ & ->)%fetchMarketNews_body Hin [e He]%articleCallback_malformed.
  destruct (mapArray_throw articleCallback _ article e Hin He) as [e' Hrun].
  exists key, (errMessage e'). destruct elems as [|x elems].
  - by apply elem_of_nil in Hin.
  - by rewrite Hrun.
Qed.

(** ** More on the aggregation routine *)

Lemma fetchMarketNews_trace h apiKey ev :
  ev ∈ trace (fetchMarketNews h apiKey) →
  (∃ key, ev = EFetch (newsUrl key)) ∨ (∃ args, ev = EWarn args).
Proof.
  unfold fetchMarketNews. run_phase.
  destruct (ToString h apiKey) as [key|e]; [|in_trace].
  destruct (fetch h (newsUrl key)) as [e|r]; [in_trace|].
  destruct (ok r); simpl; [|in_trace].
  destruct (json r) as [data|e]; [|in_trace].
  destruct data as [| | | | |[|a elems]|]; try in_trace.
  destruct (mapArray articleCallback (take 5 (a :: elems))); in_trace.
Qed.

(** Each phase makes its one request as soon as the URL is built. *)
Lemma fetchIndexQuotes_urls h apiKey :
  fetchedUrls (trace (fetchIndexQuotes h apiKey))
  = match ToString h apiKey with
    | Normal key => [quoteUrl key]
    | Throw _ => []
    end.
Proof.
  unfold fetchIndexQuotes. run_phase.
  destruct (ToString h apiKey) as [key|e]; [|done].
  destruct (fetch h (quoteUrl key)) as [e|r]; [done|].
  destruct (ok r); simpl; [|done].
  destruct (json r) as [data|e]; [|done].
  destruct data as [| | | | |[|a elems]|]; try done.
  by destruct (forEach (quoteCallback h) (a :: elems) ∅).
Qed.

Lemma fetchMarketNews_urls h apiKey :
  fetchedUrls (trace (fetchMarketNews h apiKey))
  = match ToString h apiKey with
    | Normal key => [newsUrl key]
    | Throw _ => []
    end.
Proof.
  unfold fetchMarketNews. run_phase.
  destruct (ToString h apiKey) as [key|e]; [|done].
  destruct (fetch h (newsUrl key)) as [e|r]; [done|].
  destruct (ok r); simpl; [|done].
  destruct (json r) as [data|e]; [|done].
  destruct data as [| | | | |[|a elems]|]; try done.
  by destruct (mapArray articleCallback (take 5 (a :: elems))).
Qed.

(** X13. When [env] itself is [undefined] or [null], [fetchMarketData]
    returns null; the fault of reading the key is caught by the outer
    handler, which reports it with [console.error], and nothing else
    happens: no warning, no network call. *)
Theorem missing_env_is_caught h env :
  nullish env = true →
  ∃ msg, fetchMarketData h env = (Normal None, [EError ["FMP fetch failed:"; msg]]).
Proof.
  intros [e He]%(Get_nullish env "FMP_API_KEY"). exists (errMessage e).
  by apply fetchMarketData_without_env.
Qed.

(** X14. Whatever happens, [fetchMarketData] makes no request, or the quote
    request alone, or the quote request followed by the news request, both
    with the same key; and it returns a snapshot exactly in the last case. *)
Theorem requests_are_quote_then_news h env :
  (result (fetchMarketData h env) = Normal None ∧
   (fetchedUrls (trace (fetchMarketData h env)) = [] ∨
    ∃ key, fetchedUrls (trace (fetchMarketData h env)) = [quoteUrl key])) ∨
  (∃ snapshot key,
     result (fetchMarketData h env) = Normal (Some snapshot) ∧
     fetchedUrls (trace (fetchMarketData h env)) = [quoteUrl key; newsUrl key]).
Proof.
  destruct (Get env "FMP_API_KEY") as [apiKey|e] eqn:Hget.
  - destruct (ToBoolean apiKey) eqn:Hkey.
    + rewrite (fetchMarketData_with_key h env apiKey Hget Hkey).
      pose proof (fetchIndexQuotes_urls h apiKey) as Hqu.
      pose proof (fetchMarketNews_urls h apiKey) as Hnu.
      destruct (fetchIndexQuotes_normal h apiKey) as [[q|] Hq]; rewrite Hq.
      * right. destruct (fetchMarketNews_normal h apiKey) as [items ->].
        apply fetchIndexQuotes_Some_inv in Hq as (_ & (key & _ & Hk & _) & _).
        rewrite Hk in Hqu, Hnu. eexists _, key. split; [done|].
        unfold trace at 1. simpl. unfold fetchedUrls in *. by rewrite omap_app, Hqu, Hnu.
      * left. split; [done|]. unfold trace at 1 3. simpl.
        rewrite Hqu. destruct (ToString h apiKey) as [key|]; eauto.
    + rewrite (fetchMarketData_without_key h env apiKey Hget Hkey). left. by split; [|left].
  - rewrite (fetchMarketData_without_env h env e Hget). left. by split; [|left].
Qed.

(** X15. When [env] is given (neither [undefined] nor [null]),
    [fetchMarketData] never writes to [console.error]: every failure is
    handled inside a phase and reported, if at all, as a warning. *)
Theorem no_console_error_when_env_is_given h env args :
  nullish env = false → EError args ∉ trace (fetchMarketData h env).
Proof.
  intros Henv Hin. pose proof (Get_prop env "FMP_API_KEY" Henv) as Hget.
  destruct (ToBoolean (prop env "FMP_API_KEY")) eqn:Hkey.
  - rewrite (fetchMarketData_with_key h env _ Hget Hkey) in Hin.
    assert (Hsplit : EError args ∈ trace (fetchIndexQuotes h (prop env "FMP_API_KEY")) ∨
                     EError args ∈ trace (fetchMarketNews h (prop env "FMP_API_KEY"))).
    { destruct (fetchIndexQuotes_normal h (prop env "FMP_API_KEY")) as [[q|] Hq];
        rewrite Hq in Hin.
      - destruct (fetchMarketNews_normal h (prop env "FMP_API_KEY")) as [items Hn].
        rewrite Hn in Hin. unfold trace at 1 in Hin. simpl in Hin.
        by apply elem_of_app in Hin.
      - left. exact Hin. }
    destruct Hsplit as [[[? ?]|[? ?]]%fetchIndexQuotes_trace
                       |[[? ?]|[? ?]]%fetchMarketNews_trace]; discriminate.
  - rewrite (fetchMarketData_without_key h env _ Hget Hkey) in Hin.
    by apply list_elem_of_singleton in Hin.
Qed.

(** X16. A quote body that is not an array, or is the empty array, returns
    null silently: after the quote request nothing is written to the
    console and nothing more is requested. *)
Theorem empty_quote_body_is_silent h env apiKey data :
  Get env "FMP_API_KEY" = Normal apiKey → ToBoolean apiKey = true →
  quoteEndpointReturns h apiKey data → isNonEmptyArray data = false →
  ∃ key, fetchMarketData h env = (Normal None, [EFetch (quoteUrl key)]).
Proof.
  intros Hget Hkey Hret Hshape.
  assert (Hfail : QuotePhaseFails h apiKey).
  { destruct Hret as (key & r & Hk & Hf & Hok & Hj). by eapply fails_shape. }
  rewrite (fetchMarketData_quote_fails h env apiKey Hget Hfail), Hkey.
  destruct (fetchIndexQuotes_body h apiKey data Hret) as (key & _ & ->).
  exists key. by destruct data as [| | | | |[|]|].
Qed.

(** X17. A non-2xx answer to the quote request returns null after one
    warning that carries the status code, and nothing more is requested. *)
Theorem quote_rejection_is_logged h env apiKey key r :
  Get env "FMP_API_KEY" = Normal apiKey → ToBoolean apiKey = true →
  ToString h apiKey = Normal key → fetch h (quoteUrl key) = Responded r →
  ok r = false →
  fetchMarketData h env
  = (Normal None,
     [EFetch (quoteUrl key); EWarn ["FMP quote API returned " +:+ pretty (status r)]]).
Proof.
  intros Hget Hkey Hk Hf Hok.
  assert (Hfail : QuotePhaseFails h apiKey) by (by eapply fails_status).
  rewrite (fetchMarketData_quote_fails h env apiKey Hget Hfail), Hkey.
  f_equal. unfold fetchIndexQuotes. run_phase. by rewrite Hk, Hf, Hok.
Qed.

(** *** Instances of the further properties *)


Lemma getKeyByValue_first_match_witness :
  getKeyByValue sharedValueTable (VStr "y") = Some "b".
Proof.
  apply (getKeyByValue_first_match [("a", "x")] "b" "y" [("c", "y")]).
  - intros Hin. apply list_elem_of_singleton in Hin. discriminate.
  - intros k v Hin. apply list_elem_of_singleton in Hin. injection Hin as -> ->.
    discriminate.
Defined.

Lemma null_quote_aborts_quotes_witness :
  result (fetchIndexQuotes
            (exampleHost (answer (VArr [sampleQuote; VNull])) (answer (VArr [])))
            (VStr "k")) = Normal None ∧
  result (fetchMarketData
            (exampleHost (answer (VArr [sampleQuote; VNull])) (answer (VArr [])))
            exampleEnv) = Normal None.
Proof.
  apply (null_quote_aborts_quotes
           (exampleHost (answer (VArr [sampleQuote; VNull])) (answer (VArr [])))
           exampleEnv (VStr "k") [sampleQuote; VNull] VNull).
  - reflexivity.
  - exists "k", (mkResponse 200 (Normal (VArr [sampleQuote; VNull]))).
    repeat split; reflexivity.
  - right. left.
  - reflexivity.
Defined.


Lemma quote_mapping_at_most_five_witness :
  (∀ key, key ∈ dom ({["SP500" := sampleRecord]} : gmap string QuoteRecord.t) →
          key ∈ map fst INDICES) ∧
  (size ({["SP500" := sampleRecord]} : gmap string QuoteRecord.t) ≤ 5)%nat.
Proof.
  apply (quote_mapping_at_most_five
           (exampleHost (answer (VArr [untrackedQuote; sampleQuote])) (answer (VArr [])))
           (VStr "k") {["SP500" := sampleRecord]}).
  vm_compute. reflexivity.
Defined.

Lemma quotes_of_concatenation_witness :
  forEach (quoteCallback (exampleHost (answer VNull) (answer VNull)))
    ([sampleQuote] ++ [laterQuote]) ∅
  = Normal ({["SP500" := laterRecord]} ∪ {["SP500" := sampleRecord]}).
Proof.
  apply (quotes_of_concatenation (exampleHost (answer VNull) (answer VNull))
           [sampleQuote] [laterQuote]); vm_compute; reflexivity.
Defined.

Lemma untracked_quotes_are_ignored_witness :
  forEach (quoteCallback (exampleHost (answer VNull) (answer VNull)))
    [untrackedQuote; sampleQuote; VStr "noise"] ∅
  = forEach (quoteCallback (exampleHost (answer VNull) (answer VNull))) [sampleQuote] ∅.
Proof.
  apply (untracked_quotes_are_ignored (exampleHost (answer VNull) (answer VNull))
           [untrackedQuote; sampleQuote; VStr "noise"] ∅).
  repeat constructor.
Defined.

Lemma news_between_one_and_five_witness :
  (1 ≤ length [shortItem] ≤ 5)%nat ∧
  ∃ elems,
    newsEndpointReturns
      (exampleHost (answer (VArr [sampleQuote])) (answer (VArr [shortArticle])))
      (VStr "k") (VArr elems) ∧
    length [shortItem] = Nat.min 5 (length elems).
Proof.
  apply (news_between_one_and_five
           (exampleHost (answer (VArr [sampleQuote])) (answer (VArr [shortArticle])))
           (VStr "k") [shortItem]).
  vm_compute. reflexivity.
Defined.

Lemma news_items_copy_the_articles_witness :
  ∃ elems article,
    newsEndpointReturns
      (exampleHost (answer (VArr [sampleQuote])) (answer (VArr [shortArticle])))
      (VStr "k") (VArr elems) ∧
    elems !! 0%nat = Some article ∧
    NewsItem.title shortItem = prop article "title" ∧
    NewsItem.site shortItem = prop article "site" ∧
    NewsItem.publishedAt shortItem = prop article "publishedDate" ∧
    NewsItem.url shortItem = prop article "url" ∧
    (String.length (NewsItem.summary shortItem) ≤ 203)%nat.
Proof.
  apply (news_items_copy_the_articles
           (exampleHost (answer (VArr [sampleQuote])) (answer (VArr [shortArticle])))
           (VStr "k") [shortItem] 0%nat shortItem).
  - vm_compute. reflexivity.
  - reflexivity.
Defined.

Lemma news_ignores_articles_beyond_the_fifth_witness :
  result (fetchMarketNews
            (exampleHost (answer (VArr [sampleQuote]))
               (answer (VArr [titled "a"; titled "b"; titled "c"; titled "d";
                              titled "e"; titled "f"])))
            (VStr "k"))
  = result (fetchMarketNews
              (exampleHost (answer (VArr [sampleQuote]))
                 (answer (VArr [titled "a"; titled "b"; titled "c"; titled "d";
                                titled "e"; VNull; VBool true])))
              (VStr "k")).
Proof.
  apply (news_ignores_articles_beyond_the_fifth _ _
           [titled "a"; titled "b"; titled "c"; titled "d"; titled "e"; titled "f"] _ _
           [titled "a"; titled "b"; titled "c"; titled "d"; titled "e"; VNull; VBool true]).
  - exists "k", (mkResponse 200
                   (Normal (VArr [titled "a"; titled "b"; titled "c"; titled "d";
                                  titled "e"; titled "f"]))).
    repeat split; reflexivity.
  - exists "k", (mkResponse 200
                   (Normal (VArr [titled "a"; titled "b"; titled "c"; titled "d";
                                  titled "e"; VNull; VBool true]))).
    repeat split; reflexivity.
  - reflexivity.
Defined.

Lemma malformed_article_voids_news_witness :
  ∃ key msg,
    fetchMarketNews
      (exampleHost (answer (VArr [sampleQuote]))
         (answer (VArr [shortArticle; VObj [("text", num 7)]])))
      (VStr "k")
    = (Normal None, [EFetch (newsUrl key); EWarn ["FMP market news fetch failed:"; msg]]).
Proof.
  apply (malformed_article_voids_news
           (exampleHost (answer (VArr [sampleQuote]))
              (answer (VArr [shortArticle; VObj [("text", num 7)]])))
           (VStr "k") [shortArticle; VObj [("text", num 7)]] (VObj [("text", num 7)])).
  - exists "k", (mkResponse 200 (Normal (VArr [shortArticle; VObj [("text", num 7)]]))).
    repeat split; reflexivity.
  - right. left.
  - right. split; [reflexivity|]. intros s. discriminate.
Defined.

Lemma missing_env_is_caught_witness :
  ∃ msg,
    fetchMarketData (exampleHost (answer (VArr [sampleQuote])) (answer (VArr []))) VNull
    = (Normal None, [EError ["FMP fetch failed:"; msg]]).
Proof.
  apply (missing_env_is_caught
           (exampleHost (answer (VArr [sampleQuote])) (answer (VArr []))) VNull).
  reflexivity.
Defined.

Lemma no_console_error_when_env_is_given_witness :
  EError ["FMP fetch failed:"; "fetch failed"]
  ∉ trace (fetchMarketData
             (exampleHost (Rejected (TypeError "fetch failed")) (answer (VArr [])))
             exampleEnv).
Proof.
  apply (no_console_error_when_env_is_given
           (exampleHost (Rejected (TypeError "fetch failed")) (answer (VArr [])))
           exampleEnv ["FMP fetch failed:"; "fetch failed"]).
  reflexivity.
Defined.

Lemma empty_quote_body_is_silent_witness :
  ∃ key,
    fetchMarketData (exampleHost (answer (VArr [])) (answer (VArr [shortArticle])))
      exampleEnv
    = (Normal None, [EFetch (quoteUrl key)]).
Proof.
  apply (empty_quote_body_is_silent
           (exampleHost (answer (VArr [])) (answer (VArr [shortArticle])))
           exampleEnv (VStr "k") (VArr [])); try reflexivity.
  exists "k", (mkResponse 200 (Normal (VArr []))). repeat split; reflexivity.
Defined.

Lemma quote_rejection_is_logged_witness :
  fetchMarketData
    (exampleHost (Responded (mkResponse 429 (Normal VNull))) (answer (VArr [shortArticle])))
    exampleEnv
  = (Normal None, [EFetch (quoteUrl "k"); EWarn ["FMP quote API returned 429"]]).
Proof.
  apply (quote_rejection_is_logged
           (exampleHost (Responded (mkResponse 429 (Normal VNull)))
                        (answer (VArr [shortArticle])))
           exampleEnv (VStr "k") "k" (mkResponse 429 (Normal VNull))); reflexivity.
Defined.
